(** * core-js-101, [src/04-date-tasks.js]: date and time tasks

    A shallow embedding of the five exported functions
    ([parseDataFromRfc2822], [parseDataFromIso8601], [isLeapYear],
    [timeSpanToString], [angleBetweenClockHands]) together with the part of
    the ECMAScript host they call ([Date], [Number], [String], [Math]).

    Conventions of the embedding.
    - A date value is a valid instant: its time value, an integer number of
      milliseconds since 1970-01-01T00:00:00Z, is a [Z].  Invalid dates
      (time value [NaN]) only appear as results of [Date.parse] and
      [Date.UTC], in the type [TimeValue].
    - JavaScript numbers that are integers are [Z], with the rounding of
      binary64 written out where it can happen.  Binary64 represents
      every integer up to 2^53 in magnitude; the difference of two time
      values can be as large as 17280000000000000, which is above 2^53, so
      the subtraction of two dates is [Number_sub], the exact difference
      rounded to the nearest binary64 number.  [a % b] is [Z.rem] (sign
      of the dividend, exact in binary64) and [Math.trunc(a / b)] is
      [Z.quot] (truncation toward zero): for a binary64 integer [a] of
      magnitude up to 17280000000000000 and [b] one of 3600000, 60000 and
      1000 the rounded quotient never reaches the next integer, and the
      products and differences that follow are binary64 numbers
      themselves.
    - Numbers that are not integers (the clock angle) are binary64 floats,
      Rocq's primitive [float], with the source's operations in the source's
      order.
    - What depends on the machine running the program, the offset of the
      local time zone and the date-string parser, is a parameter of the
      functions that use it. *)

From Stdlib Require Import ZArith Bool List String Ascii Lia.
From Stdlib Require Import Floats Uint63.
Import ListNotations.

Local Open Scope Z_scope.

(** ** The ECMAScript host *)

Module ES.

(** *** Time values ([Date], ECMA-262 section 21.4.1) *)

Definition msPerSecond : Z := 1000.
Definition msPerMinute : Z := 60000.
Definition msPerHour : Z := 3600000.
Definition msPerDay : Z := 86400000.
Definition HoursPerDay : Z := 24.
Definition MinutesPerHour : Z := 60.

(** The result of [Date.parse] and [Date.UTC]: a time value or [NaN]. *)
Inductive TimeValue : Type :=
| NaN : TimeValue
| Finite (t : Z) : TimeValue.

Definition Day (t : Z) : Z := t / msPerDay.

Definition DaysInYear (y : Z) : Z :=
  if negb (y mod 4 =? 0) then 365
  else if negb (y mod 100 =? 0) then 366
  else if negb (y mod 400 =? 0) then 365
  else 366.

Definition InLeapYear (y : Z) : bool := DaysInYear y =? 366.

Definition DayFromYear (y : Z) : Z :=
  365 * (y - 1970) + (y - 1969) / 4 - (y - 1901) / 100 + (y - 1601) / 400.

Definition TimeFromYear (y : Z) : Z := msPerDay * DayFromYear y.

(** [YearFromTime t] is the largest [y] with [TimeFromYear y <= t].  It is
    computed from the mean year length, 146097 days in 400 years, which is
    off by at most one year (lemma [YearFromTime_spec] below). *)
Definition YearFromTime (t : Z) : Z :=
  let d := Day t in
  let y := 1970 + (400 * d) / 146097 in
  if d <? DayFromYear y then y - 1
  else if DayFromYear (y + 1) <=? d then y + 1
  else y.

Definition HourFromTime (t : Z) : Z := (t / msPerHour) mod HoursPerDay.
Definition MinFromTime (t : Z) : Z := (t / msPerMinute) mod MinutesPerHour.

(** Days from the start of a year to the start of month [mn] (0 to 11). *)
Definition daysBeforeMonth (leap : bool) (mn : Z) : Z :=
  let l := if leap then 1 else 0 in
  match mn with
  | 0 => 0
  | 1 => 31
  | 2 => 59 + l
  | 3 => 90 + l
  | 4 => 120 + l
  | 5 => 151 + l
  | 6 => 181 + l
  | 7 => 212 + l
  | 8 => 243 + l
  | 9 => 273 + l
  | 10 => 304 + l
  | _ => 334 + l
  end.

Definition MakeTime (hour min sec ms : Z) : Z :=
  hour * msPerHour + min * msPerMinute + sec * msPerSecond + ms.

Definition MakeDay (year month date : Z) : Z :=
  let ym := year + month / 12 in
  let mn := month mod 12 in
  DayFromYear ym + daysBeforeMonth (InLeapYear ym) mn + date - 1.

Definition MakeDate (day time : Z) : Z := day * msPerDay + time.

Definition TimeClip (time : Z) : TimeValue :=
  if Z.abs time >? 8640000000000000 then NaN else Finite time.

(** The time values of valid dates. *)
Definition validTime (t : Z) : Prop := Z.abs t <= 8640000000000000.

(** [Date.UTC(year, month, date, hours, minutes)]. *)
Definition Date_UTC (year month date hours minutes : Z) : TimeValue :=
  let yr := if (0 <=? year) && (year <=? 99) then 1900 + year else year in
  TimeClip (MakeDate (MakeDay yr month date) (MakeTime hours minutes 0 0)).

(** *** The machine the program runs on

    Local time is UTC time moved by the offset of the local time zone,
    [LocalTZA], in milliseconds and as a function of the UTC instant.  It
    belongs to the machine, not to the program. *)

Section LocalTime.

Variable LocalTZA : Z -> Z.

Definition LocalTime (t : Z) : Z := t + LocalTZA t.

Definition getFullYear (date : Z) : Z := YearFromTime (LocalTime date).
Definition getHours (date : Z) : Z := HourFromTime (LocalTime date).
Definition getMinutes (date : Z) : Z := MinFromTime (LocalTime date).

End LocalTime.

(** [new Date(date)] for a valid date value or time value: a date with the
    same time value. *)
Definition new_Date (date : Z) : Z := date.

(** *** [Number.prototype.toString] on integers, [String.prototype.padStart] *)

Definition digitChar (d : Z) : ascii :=
  match d with
  | 0 => "0" | 1 => "1" | 2 => "2" | 3 => "3" | 4 => "4"
  | 5 => "5" | 6 => "6" | 7 => "7" | 8 => "8" | _ => "9"
  end%char.

(** The decimal digits of [n >= 0] in front of [acc]; [fuel] bounds the
    number of digits. *)
Fixpoint digitsOf (fuel : nat) (n : Z) (acc : string) : string :=
  match fuel with
  | O => acc
  | S fuel' =>
      let acc' := String (digitChar (n mod 10)) acc in
      if n <? 10 then acc' else digitsOf fuel' (n / 10) acc'
  end.

Definition digitFuel (n : Z) : nat := S (Z.to_nat (Z.log2 n)).

Definition Number_toString (n : Z) : string :=
  if n <? 0 then String "-"%char (digitsOf (digitFuel (- n)) (- n) EmptyString)
  else digitsOf (digitFuel n) n EmptyString.

Fixpoint repeatString (s : string) (n : nat) : string :=
  match n with
  | O => EmptyString
  | S n' => (s ++ repeatString s n')%string
  end.

(** [s.padStart(maxLength, fillString)] with [fillString] already a string. *)
Definition String_padStart (s : string) (maxLength : nat) (filler : string)
  : string :=
  let stringLength := String.length s in
  if (maxLength <=? stringLength)%nat then s
  else if (String.length filler =? 0)%nat then s
  else
    let fillLen := (maxLength - stringLength)%nat in
    (substring 0 fillLen (repeatString filler fillLen) ++ s)%string.

(** *** Binary64 numbers ([Number], [Math]) *)

(** The binary64 number nearest to the integer [x], ties to the even
    significand: [x] itself while it has at most 53 bits; with [e] bits
    more, the nearest multiple of [2 ^ e]. *)
Definition toBinary64 (x : Z) : Z :=
  let a := Z.abs x in
  let e := Z.log2 a + 1 - 53 in
  if e <=? 0 then x
  else
    let q := a / 2 ^ e in
    let r := a mod 2 ^ e in
    let half := 2 ^ (e - 1) in
    let q' := if (half <? r) || ((r =? half) && Z.odd q) then q + 1 else q in
    Z.sgn x * (q' * 2 ^ e).

(** [a - b] on two binary64 integers. *)
Definition Number_sub (a b : Z) : Z := toBinary64 (a - b).

Definition Math_PI : float := 0x1.921fb54442d18p+1%float.

Definition Math_abs (x : float) : float := PrimFloat.abs x.

(** The binary64 number that an integer below 2^53 in magnitude is. *)
Definition num (z : Z) : float :=
  if z <? 0 then PrimFloat.opp (PrimFloat.of_uint63 (Uint63.of_Z (- z)))
  else PrimFloat.of_uint63 (Uint63.of_Z z).

End ES.

(** ** The program: [src/04-date-tasks.js] *)

Module DateTasks.
Import ES.

Section Parsers.

(** [Date.parse], the parser of the machine: outside the ECMAScript
    date-time string format what it accepts is implementation-defined. *)
Variable Date_parse : string -> TimeValue.

Definition parseDataFromRfc2822 (value : string) : TimeValue :=
  Date_parse value.

Definition parseDataFromIso8601 (value : string) : TimeValue :=
  Date_parse value.

End Parsers.

Section Dates.

Variable LocalTZA : Z -> Z.

Definition isLeapYear (date : Z) : bool :=
  if Z.rem (getFullYear LocalTZA date) 4 >? 0 then false
  else if Z.rem (getFullYear LocalTZA date) 100 =? 0 then
    if Z.rem (getFullYear LocalTZA date) 400 =? 0 then true
    else false
  else true.

Definition timeSpanToString (startDate endDate : Z) : string :=
  let millisecondQuantity := Number_sub endDate startDate in
  let hour := Z.quot millisecondQuantity 3600000 in
  let minutes := Z.quot (Z.rem millisecondQuantity 3600000) 60000 in
  let seconds :=
    Z.quot (Z.rem (Z.rem millisecondQuantity 3600000) 60000) 1000 in
  let millisecond :=
    millisecondQuantity - 3600000 * hour - minutes * 60000 - seconds * 1000 in
  (String_padStart (Number_toString hour) 2 (Number_toString 0) ++ ":"
   ++ String_padStart (Number_toString minutes) 2 (Number_toString 0) ++ ":"
   ++ String_padStart (Number_toString seconds) 2 (Number_toString 0) ++ "."
   ++ String_padStart (Number_toString millisecond) 3 (Number_toString 0))%string.

(** Lines 107 to 109: the local hour moved back by three hours. *)
Definition shiftHours (hours : Z) : Z :=
  if hours - 3 <? 0 then hours - 3 + 24 else hours - 3.

(** Lines 110 to 149: the [switch] under [if (hours > 12)]. *)
Definition remapHours (hours : Z) : Z :=
  if hours >? 12 then
    match hours with
    | 13 => 1
    | 14 => 2
    | 15 => 3
    | 16 => 4
    | 17 => 5
    | 18 => 6
    | 19 => 7
    | 20 => 8
    | 21 => 9
    | 22 => 10
    | 23 => 11
    | _ => 0
    end
  else hours.

Definition angleBetweenClockHands (date : Z) : float :=
  let dateFormat := new_Date date in
  let hours := getHours LocalTZA dateFormat in
  let hours := shiftHours hours in
  let hours := remapHours hours in
  let minutes := getMinutes LocalTZA dateFormat in
  let ugol :=
    Math_abs (0.5 * (60 * num hours + num minutes) - 6 * num minutes)%float in
  let ugol := if (180 <? ugol)%float then (ugol / 3)%float else ugol in
  ((Math_PI * ugol) / 180)%float.

End Dates.

End DateTasks.

Import ES DateTasks.

(** ** Reading the printed time span back

    The reader that the properties of [timeSpanToString] are stated with:
    it cuts a string at the two colons and at the dot and reads each part
    as a decimal numeral. *)

Module Reading.

(** The value of a digit character, from its code: 48 for the digit 0 up
    to 57 for the digit 9. *)
Definition digitValue (c : ascii) : option Z :=
  let code := Z.of_N (N_of_ascii c) in
  if (48 <=? code) && (code <=? 57) then Some (code - 48) else None.

(** The number that the digits of [s] continue [acc] to. *)
Fixpoint readDigits (s : string) (acc : Z) : option Z :=
  match s with
  | EmptyString => Some acc
  | String c s' =>
      match digitValue c with
      | Some d => readDigits s' (acc * 10 + d)
      | None => None
      end
  end.

(** A decimal numeral is one digit at least, and digits only. *)
Definition parseDecimal (s : string) : option Z :=
  match s with
  | EmptyString => None
  | _ => readDigits s 0
  end.

(** [s] cut at the first occurrence of [sep]. *)
Fixpoint splitAt (sep : ascii) (s : string) : option (string * string) :=
  match s with
  | EmptyString => None
  | String c s' =>
      if Ascii.eqb c sep then Some (EmptyString, s')
      else
        match splitAt sep s' with
        | Some (a, b) => Some (String c a, b)
        | None => None
        end
  end.

(** The fields H, M, S and ms of a string of the shape H:M:S.ms. *)
Definition parseTimeSpan (s : string) : option (Z * Z * Z * Z) :=
  match splitAt ":" s with
  | Some (hh, r1) =>
      match splitAt ":" r1 with
      | Some (mm, r2) =>
          match splitAt "." r2 with
          | Some (ss, mmm) =>
              match parseDecimal hh, parseDecimal mm,
                    parseDecimal ss, parseDecimal mmm with
              | Some h, Some m, Some sec, Some ms => Some (h, m, sec, ms)
              | _, _, _, _ => None
              end
          | None => None
          end
      | None => None
      end
  | None => None
  end.

End Reading.

Import Reading.

(** ** The vocabulary of the stated properties

    Second definitions, written after the words of the specification, that
    the functions of the program are compared with. *)

Module Stated.

(** The Gregorian rule: divisible by 4, and not by 100 unless by 400. *)
Definition gregorianLeap (Y : Z) : bool :=
  (Z.rem Y 4 =? 0) && (negb (Z.rem Y 100 =? 0) || (Z.rem Y 400 =? 0)).

(** The fixed table of the hour preprocessing: 13 to 1, ..., 23 to 11. *)
Definition hourTable : list (Z * Z) :=
  [(13, 1); (14, 2); (15, 3); (16, 4); (17, 5); (18, 6); (19, 7); (20, 8);
   (21, 9); (22, 10); (23, 11)].

Definition tableHour (h : Z) : Z :=
  match find (fun p => fst p =? h) hourTable with
  | Some p => snd p
  | None => 0
  end.

(** The local hour less three hours, wrapped into 0 to 23, and sent through
    the table when above 12. *)
Definition hour12 (localHour : Z) : Z :=
  let shifted := localHour - 3 in
  let wrapped := if shifted <? 0 then shifted + 24 else shifted in
  if wrapped >? 12 then tableHour wrapped else wrapped.

(** The four numbers that [timeSpanToString] prints. *)
Record TimeSpan : Type := {
  ts_hour : Z;
  ts_minutes : Z;
  ts_seconds : Z;
  ts_millisecond : Z
}.

Definition timeSpanFields (startDate endDate : Z) : TimeSpan :=
  let D := Number_sub endDate startDate in
  let hour := Z.quot D 3600000 in
  let minutes := Z.quot (Z.rem D 3600000) 60000 in
  let seconds := Z.quot (Z.rem (Z.rem D 3600000) 60000) 1000 in
  {| ts_hour := hour; ts_minutes := minutes; ts_seconds := seconds;
     ts_millisecond := D - 3600000 * hour - minutes * 60000 - seconds * 1000 |}.

(** A number printed and padded with zeros on the left. *)
Definition pad (width : nat) (n : Z) : string :=
  String_padStart (Number_toString n) width (Number_toString 0).

(** The raw angle in degrees. *)
Definition rawAngle (h12 minute : Z) : float :=
  PrimFloat.abs (0.5 * (60 * num h12 + num minute) - 6 * num minute)%float.

(** Above 180 degrees the angle is divided by 3. *)
Definition foldAngle (raw : float) : float :=
  if (180 <? raw)%float then (raw / 3)%float else raw.

(** The same with the textbook correction for comparison. *)
Definition reflexAngle (raw : float) : float :=
  if (180 <? raw)%float then (360 - raw)%float else raw.

(** Degrees to radians as the source writes it: times pi, then by 180. *)
Definition radians (deg : float) : float := ((Math_PI * deg) / 180)%float.

(** Two machines: one on UTC, one three hours ahead of it. *)
Definition utc : Z -> Z := fun _ => 0.
Definition utcPlus3 : Z -> Z := fun _ => 3 * msPerHour.

(** The local hours and minutes there are, for proofs by cases. *)
Definition hoursOfDay : list Z := map Z.of_nat (seq 0 24).
Definition minutesOfHour : list Z := map Z.of_nat (seq 0 60).

Definition everyTime (P : Z -> Z -> bool) : bool :=
  forallb (fun h => forallb (fun m => P h m) minutesOfHour) hoursOfDay.

End Stated.

Import Stated.

(** ** Calendar dates, characters and periods

    What the further properties at the end are stated with. *)

Module Further.

(** The days of month [mn] (0 to 11). *)
Definition DaysInMonth (leap : bool) (mn : Z) : Z :=
  if mn =? 1 then (if leap then 29 else 28)
  else if (mn =? 3) || (mn =? 5) || (mn =? 8) || (mn =? 10) then 30
  else 31.

(** A time value is the instant [time] of day [date] of month [month] of
    year [year] when these fields are in range. *)
Definition calendarDate (year month date time : Z) : Prop :=
  0 <= month <= 11
  /\ 1 <= date <= DaysInMonth (InLeapYear year) month
  /\ 0 <= time < msPerDay.

(** The Gregorian calendar repeats after 400 years, which are 146097 days. *)
Definition gregorianCycle : Z := 146097 * msPerDay.

(** Whether the character [c] occurs in [s]. *)
Fixpoint occurs (c : ascii) (s : string) : bool :=
  match s with
  | EmptyString => false
  | String x s' => Ascii.eqb x c || occurs c s'
  end.

(** The angle as a function of the local hour and minute. *)
Definition angleAt (localHour minute : Z) : float :=
  radians (foldAngle (rawAngle (hour12 localHour) minute)).

End Further.

Import Further.

(** ** The host model: calendar arithmetic *)

Section HostFacts.

Lemma DayFromYear_below (d : Z) :
  DayFromYear (1970 + 400 * d / 146097 - 1) <= d.
Proof. unfold DayFromYear. Z.div_mod_to_equations. lia. Qed.

Lemma DayFromYear_above (d : Z) :
  d < DayFromYear (1970 + 400 * d / 146097 + 1 + 1).
Proof. unfold DayFromYear. Z.div_mod_to_equations. lia. Qed.

Lemma TimeFromYear_le (y t : Z) :
  TimeFromYear y <= t <-> DayFromYear y <= Day t.
Proof.
  unfold TimeFromYear, Day, msPerDay. split; intros H.
  - apply Z.div_le_lower_bound; lia.
  - Z.div_mod_to_equations. lia.
Qed.

(** [YearFromTime] is the year the time value falls in. *)
Lemma YearFromTime_spec (t : Z) :
  TimeFromYear (YearFromTime t) <= t < TimeFromYear (YearFromTime t + 1).
Proof.
  assert (L : forall y, t < TimeFromYear y <-> Day t < DayFromYear y).
  { intros y. pose proof (TimeFromYear_le y t). lia. }
  rewrite TimeFromYear_le, L. unfold YearFromTime.
  pose proof (DayFromYear_below (Day t)).
  pose proof (DayFromYear_above (Day t)).
  destruct (Z.ltb_spec (Day t) (DayFromYear (1970 + 400 * Day t / 146097))).
  - replace (1970 + 400 * Day t / 146097 - 1 + 1)
      with (1970 + 400 * Day t / 146097) by lia. lia.
  - destruct (Z.leb_spec (DayFromYear (1970 + 400 * Day t / 146097 + 1)) (Day t));
      lia.
Qed.

Lemma DayFromYear_mono (a b : Z) : a <= b -> DayFromYear a <= DayFromYear b.
Proof. intros H. unfold DayFromYear. Z.div_mod_to_equations. lia. Qed.

(** The year of a time value is the only year whose span holds it. *)
Lemma YearFromTime_unique (y t : Z) :
  TimeFromYear y <= t < TimeFromYear (y + 1) -> YearFromTime t = y.
Proof.
  intros [L U]. destruct (YearFromTime_spec t) as [L' U'].
  unfold TimeFromYear, msPerDay in *.
  destruct (Z.lt_trichotomy (YearFromTime t) y) as [C | [C | C]].
  - pose proof (DayFromYear_mono (YearFromTime t + 1) y). lia.
  - exact C.
  - pose proof (DayFromYear_mono (y + 1) (YearFromTime t)). lia.
Qed.

(** The first instant of a year, as [Date.UTC] builds it, is in that year. *)
Lemma YearFromTime_MakeDay (y : Z) :
  YearFromTime (MakeDate (MakeDay y 0 1) 0) = y.
Proof.
  apply YearFromTime_unique.
  assert (E : MakeDate (MakeDay y 0 1) 0 = TimeFromYear y).
  { unfold MakeDate, MakeDay, TimeFromYear, daysBeforeMonth.
    change (0 / 12) with 0. change (0 mod 12) with 0. cbv iota zeta.
    rewrite (Z.add_0_r y). ring. }
  rewrite E. unfold TimeFromYear, msPerDay, DayFromYear.
  Z.div_mod_to_equations. lia.
Qed.

End HostFacts.

(** ** The host model: rounding to binary64 *)

Section Binary64.

Lemma toBinary64_opp (x : Z) : toBinary64 (- x) = - toBinary64 x.
Proof.
  unfold toBinary64. rewrite Z.abs_opp, Z.sgn_opp.
  destruct (Z.log2 (Z.abs x) + 1 - 53 <=? 0); ring.
Qed.

(** Up to 2^53 in magnitude nothing is rounded. *)
Lemma toBinary64_exact (x : Z) :
  Z.abs x <= 2 ^ 53 -> toBinary64 x = x.
Proof.
  intros H. destruct (Z.eq_dec (Z.abs x) (2 ^ 53)) as [E | N].
  - destruct (Z.abs_eq_or_opp x) as [A | A]; rewrite A in E.
    + rewrite E. reflexivity.
    + replace x with (- 2 ^ 53) by lia. reflexivity.
  - unfold toBinary64.
    assert (L : Z.log2 (Z.abs x) < 53).
    { destruct (Z.eq_dec (Z.abs x) 0) as [-> | P]; [reflexivity |].
      apply Z.log2_lt_pow2; lia. }
    destruct (Z.leb_spec (Z.log2 (Z.abs x) + 1 - 53) 0); [reflexivity | lia].
Qed.

(** From 2^53 on the rounded number is 2^53 at least. *)
Lemma toBinary64_large (x : Z) :
  2 ^ 53 <= x -> 2 ^ 53 <= toBinary64 x.
Proof.
  intros H.
  assert (P : 0 < x) by (pose proof (Z.pow_pos_nonneg 2 53); lia).
  unfold toBinary64. rewrite (Z.abs_eq x), (Z.sgn_pos x) by lia.
  assert (L : 53 <= Z.log2 x) by (apply Z.log2_le_pow2; lia).
  destruct (Z.leb_spec (Z.log2 x + 1 - 53) 0) as [C | C]; [lia |].
  set (e := Z.log2 x + 1 - 53) in *.
  assert (Pe : 0 < 2 ^ e) by (apply Z.pow_pos_nonneg; lia).
  assert (S : 2 ^ Z.log2 x = 2 ^ 52 * 2 ^ e).
  { rewrite <- Z.pow_add_r by lia. f_equal. subst e. ring. }
  assert (Q : 2 ^ 52 <= x / 2 ^ e).
  { apply Z.div_le_lower_bound; [exact Pe |].
    pose proof (Z.log2_spec x P). lia. }
  assert (M : 2 ^ 53 <= 2 ^ 52 * 2 ^ e).
  { rewrite <- S. apply Z.pow_le_mono_r; lia. }
  cbv zeta.
  destruct ((2 ^ (e - 1) <? x mod 2 ^ e)
            || ((x mod 2 ^ e =? 2 ^ (e - 1)) && Z.odd (x / 2 ^ e))); nia.
Qed.

Lemma toBinary64_positive (x : Z) : 0 < x -> 0 < toBinary64 x.
Proof.
  intros H. destruct (Z.le_gt_cases x (2 ^ 53)) as [C | C].
  - rewrite toBinary64_exact by (rewrite Z.abs_eq; lia). exact H.
  - pose proof (toBinary64_large x). pose proof (Z.pow_pos_nonneg 2 53). lia.
Qed.

Lemma toBinary64_negative (x : Z) : x < 0 -> toBinary64 x < 0.
Proof.
  intros H. pose proof (toBinary64_positive (- x)) as P.
  rewrite toBinary64_opp in P. lia.
Qed.

Lemma toBinary64_nonneg (x : Z) : 0 <= x -> 0 <= toBinary64 x.
Proof.
  intros H. destruct (Z.eq_dec x 0) as [-> | N]; [discriminate |].
  pose proof (toBinary64_positive x). lia.
Qed.

(** A bound below 2^53 that the exact number reaches, the rounded number
    reaches too. *)
Lemma toBinary64_lower (c x : Z) :
  c <= 2 ^ 53 -> 0 <= x -> c <= x -> c <= toBinary64 x.
Proof.
  intros Hc P Hx. destruct (Z.le_gt_cases (2 ^ 53) x) as [C | C].
  - pose proof (toBinary64_large x C). lia.
  - rewrite toBinary64_exact by (rewrite Z.abs_eq; lia). exact Hx.
Qed.

(** The rounding agrees with the conversion of the machine at the edges of
    the ranges in which the spacing of binary64 numbers is 1, 2, 4 and
    1024, ties included. *)
Lemma toBinary64_of_uint63 :
  forallb
    (fun x => Leibniz.eqb (num (toBinary64 x))
                          (PrimFloat.of_uint63 (Uint63.of_Z x)))
    [0; 1; 2 ^ 53 - 1; 2 ^ 53; 2 ^ 53 + 1; 2 ^ 53 + 2; 2 ^ 53 + 3;
     17279999999999997; 17279999999999998; 17279999999999999;
     2 ^ 54 - 3; 2 ^ 54 - 2; 2 ^ 54 - 1; 2 ^ 54; 2 ^ 54 + 1; 2 ^ 54 + 2;
     2 ^ 54 + 3; 2 ^ 54 + 5; 2 ^ 54 + 6; 2 ^ 54 + 7;
     2 ^ 62 + 511; 2 ^ 62 + 512; 2 ^ 62 + 513; 2 ^ 62 + 1535;
     2 ^ 62 + 1536; 2 ^ 62 + 1537]
  = true.
Proof. vm_compute. reflexivity. Qed.

(** The largest difference of two valid dates, in binary64 and here. *)
Lemma Number_sub_extreme :
  (num 8640000000000000 - num (-8639999999999999))%float
  = num (Number_sub 8640000000000000 (-8639999999999999))
  /\ Number_sub 8640000000000000 (-8639999999999999) = 17280000000000000.
Proof. split; vm_compute; reflexivity. Qed.

End Binary64.

(** ** The host model: decimal numerals and padding *)

Section Numerals.

Lemma string_app_assoc (a b c : string) :
  ((a ++ b) ++ c = a ++ (b ++ c))%string.
Proof. induction a as [| x a IH]; simpl; [| rewrite IH]; reflexivity. Qed.

Lemma string_length_app (a b : string) :
  String.length (a ++ b) = (String.length a + String.length b)%nat.
Proof. induction a as [| x a IH]; simpl; [| rewrite IH]; reflexivity. Qed.

Lemma digitValue_digitChar (d : Z) :
  0 <= d < 10 -> digitValue (digitChar d) = Some d.
Proof.
  intros H.
  assert (C : d = 0 \/ d = 1 \/ d = 2 \/ d = 3 \/ d = 4 \/ d = 5 \/ d = 6
              \/ d = 7 \/ d = 8 \/ d = 9) by lia.
  repeat (destruct C as [-> | C]; [reflexivity |]). subst d. reflexivity.
Qed.

Lemma readDigits_app (a b : string) (acc : Z) :
  readDigits (a ++ b) acc =
  match readDigits a acc with
  | Some v => readDigits b v
  | None => None
  end.
Proof.
  revert acc. induction a as [| c a IH]; intros acc; simpl.
  - reflexivity.
  - destruct (digitValue c); [apply IH | reflexivity].
Qed.

Lemma digitsOf_acc (fuel : nat) (n : Z) (acc : string) :
  digitsOf fuel n acc = (digitsOf fuel n EmptyString ++ acc)%string.
Proof.
  revert n acc. induction fuel as [| fuel IH]; intros n acc; simpl.
  - reflexivity.
  - destruct (n <? 10); [reflexivity |].
    rewrite (IH (n / 10) (String _ acc)).
    rewrite (IH (n / 10) (String _ EmptyString)).
    rewrite string_app_assoc. reflexivity.
Qed.

Lemma digitsOf_step (fuel : nat) (n : Z) :
  digitsOf (S fuel) n EmptyString =
  if n <? 10 then String (digitChar (n mod 10)) EmptyString
  else (digitsOf fuel (n / 10) EmptyString
          ++ String (digitChar (n mod 10)) EmptyString)%string.
Proof.
  simpl. destruct (n <? 10); [reflexivity | apply digitsOf_acc].
Qed.

Lemma pow2_fuel_step (fuel : nat) (n : Z) :
  0 <= n < 2 ^ Z.of_nat (S (S fuel)) -> 0 <= n / 10 < 2 ^ Z.of_nat (S fuel).
Proof.
  intros [H0 H1].
  replace (Z.of_nat (S (S fuel))) with (Z.succ (Z.of_nat (S fuel))) in H1 by lia.
  rewrite Z.pow_succ_r in H1 by lia.
  split.
  - apply Z.div_pos; lia.
  - apply Z.div_lt_upper_bound; lia.
Qed.

(** Reading the digits of [n] gives [n] back. *)
Lemma readDigits_digitsOf (fuel : nat) :
  forall n, 0 <= n < 2 ^ Z.of_nat (S fuel) ->
            readDigits (digitsOf (S fuel) n EmptyString) 0 = Some n.
Proof.
  induction fuel as [| fuel IH]; intros n Hn.
  - assert (C : n = 0 \/ n = 1) by (change (2 ^ Z.of_nat 1) with 2 in Hn; lia).
    destruct C as [-> | ->]; reflexivity.
  - rewrite digitsOf_step. destruct (Z.ltb_spec n 10) as [Hs | Hs].
    + rewrite Z.mod_small by lia. simpl.
      rewrite digitValue_digitChar by lia. reflexivity.
    + rewrite readDigits_app, IH by (apply pow2_fuel_step; exact Hn).
      simpl. rewrite digitValue_digitChar by (apply Z.mod_pos_bound; lia).
      f_equal. pose proof (Z.div_mod n 10). lia.
Qed.

Lemma digitsOf_nonempty (fuel : nat) (n : Z) :
  (1 <= String.length (digitsOf (S fuel) n EmptyString))%nat.
Proof.
  rewrite digitsOf_step. destruct (n <? 10); simpl; [lia |].
  rewrite string_length_app. simpl. lia.
Qed.

(** A number below [10 ^ k] has at most [k] digits. *)
Lemma digitsOf_length_le (fuel : nat) :
  forall n k, (1 <= k)%nat -> 0 <= n < 10 ^ Z.of_nat k ->
              (String.length (digitsOf fuel n EmptyString) <= k)%nat.
Proof.
  induction fuel as [| fuel IH]; intros n k Hk Hn.
  - simpl. lia.
  - rewrite digitsOf_step. destruct (Z.ltb_spec n 10) as [Hs | Hs].
    + simpl. lia.
    + destruct k as [| [| k]]; try lia.
      rewrite string_length_app. simpl.
      assert (String.length (digitsOf fuel (n / 10) EmptyString) <= S k)%nat.
      { apply IH; [lia |].
        replace (Z.of_nat (S (S k))) with (Z.succ (Z.of_nat (S k))) in Hn by lia.
        rewrite Z.pow_succ_r in Hn by lia.
        split; [apply Z.div_pos; lia | apply Z.div_lt_upper_bound; lia]. }
      lia.
Qed.

(** What [k] digits read to, starting from [acc], is below
    [(acc + 1) * 10 ^ k]. *)
Lemma readDigits_bound (s : string) :
  forall acc v, 0 <= acc -> readDigits s acc = Some v ->
                acc * 10 ^ Z.of_nat (String.length s) <= v
                < (acc + 1) * 10 ^ Z.of_nat (String.length s).
Proof.
  induction s as [| c s IH]; intros acc v Hacc H; simpl in H.
  - injection H as <-. simpl. lia.
  - destruct (digitValue c) as [d |] eqn:Hd; [| discriminate].
    assert (0 <= d < 10).
    { unfold digitValue in Hd.
      destruct (Z.leb_spec 48 (Z.of_N (N_of_ascii c)));
        destruct (Z.leb_spec (Z.of_N (N_of_ascii c)) 57);
        simpl in Hd; try discriminate; injection Hd as <-; lia. }
    apply IH in H; [| lia].
    replace (Z.of_nat (String.length (String c s)))
      with (Z.succ (Z.of_nat (String.length s))) by (simpl; lia).
    rewrite Z.pow_succ_r by lia.
    assert (0 < 10 ^ Z.of_nat (String.length s)) by (apply Z.pow_pos_nonneg; lia).
    nia.
Qed.

End Numerals.

(** ** [padStart] with the filler ["0"] *)

Section Padding.

Lemma Number_toString_nonneg (n : Z) :
  0 <= n -> Number_toString n = digitsOf (digitFuel n) n EmptyString.
Proof.
  intros H. unfold Number_toString.
  destruct (Z.ltb_spec n 0); [lia | reflexivity].
Qed.

Lemma digitFuel_enough (n : Z) :
  0 <= n -> 0 <= n < 2 ^ Z.of_nat (digitFuel n).
Proof.
  intros H. unfold digitFuel.
  replace (Z.of_nat (S (Z.to_nat (Z.log2 n)))) with (Z.succ (Z.log2 n))
    by (pose proof (Z.log2_nonneg n); lia).
  destruct (Z.eq_dec n 0) as [-> | Hn].
  - simpl. lia.
  - pose proof (Z.log2_spec n). lia.
Qed.

Lemma readDigits_toString (n : Z) :
  0 <= n -> readDigits (Number_toString n) 0 = Some n.
Proof.
  intros H. rewrite Number_toString_nonneg by exact H.
  apply readDigits_digitsOf. apply (digitFuel_enough n H).
Qed.

Lemma zeros_prefix (k : nat) :
  substring 0 k (repeatString "0" k) = repeatString "0" k.
Proof. induction k as [| k IH]; simpl; [| rewrite IH]; reflexivity. Qed.

Lemma zeros_length (k : nat) : String.length (repeatString "0" k) = k.
Proof. induction k as [| k IH]; simpl; [| rewrite IH]; reflexivity. Qed.

Lemma zeros_read (k : nat) : readDigits (repeatString "0" k) 0 = Some 0.
Proof. induction k as [| k IH]; simpl; [reflexivity | exact IH]. Qed.

(** [pad] unfolded: the numeral as it is when it is wide enough, and behind
    the missing zeros otherwise. *)
Lemma pad_unfold (width : nat) (n : Z) :
  pad width n =
  if (width <=? String.length (Number_toString n))%nat then Number_toString n
  else (repeatString "0" (width - String.length (Number_toString n))
          ++ Number_toString n)%string.
Proof.
  unfold pad, String_padStart. change (Number_toString 0) with "0"%string.
  destruct (width <=? String.length (Number_toString n))%nat; [reflexivity |].
  simpl (String.length "0" =? 0)%nat. cbv iota.
  rewrite zeros_prefix. reflexivity.
Qed.

Lemma pad_read (width : nat) (n : Z) :
  0 <= n -> readDigits (pad width n) 0 = Some n.
Proof.
  intros H. rewrite pad_unfold.
  destruct (width <=? String.length (Number_toString n))%nat.
  - apply readDigits_toString, H.
  - rewrite readDigits_app, zeros_read. apply readDigits_toString, H.
Qed.

Lemma pad_length_ge (width : nat) (n : Z) :
  (width <= String.length (pad width n))%nat.
Proof.
  rewrite pad_unfold.
  destruct (Nat.leb_spec width (String.length (Number_toString n))).
  - assumption.
  - rewrite string_length_app, zeros_length. lia.
Qed.

Lemma pad_nonempty (width : nat) (n : Z) :
  0 <= n -> (1 <= String.length (pad width n))%nat.
Proof.
  intros H. rewrite pad_unfold.
  assert (1 <= String.length (Number_toString n))%nat.
  { rewrite Number_toString_nonneg by exact H. apply digitsOf_nonempty. }
  destruct (width <=? String.length (Number_toString n))%nat.
  - assumption.
  - rewrite string_length_app. lia.
Qed.

Lemma pad_parse (width : nat) (n : Z) :
  0 <= n -> parseDecimal (pad width n) = Some n.
Proof.
  intros H. pose proof (pad_nonempty width n H) as L.
  pose proof (pad_read width n H) as R. unfold parseDecimal.
  destruct (pad width n); [simpl in L; lia | exact R].
Qed.

(** Exactly [width] characters when the number has at most [width] digits. *)
Lemma pad_length_exact (width : nat) (n : Z) :
  (1 <= width)%nat -> 0 <= n < 10 ^ Z.of_nat width ->
  String.length (pad width n) = width.
Proof.
  intros Hw Hn. rewrite pad_unfold.
  assert (String.length (Number_toString n) <= width)%nat.
  { rewrite Number_toString_nonneg by lia. apply digitsOf_length_le; assumption. }
  destruct (Nat.leb_spec width (String.length (Number_toString n))).
  - lia.
  - rewrite string_length_app, zeros_length. lia.
Qed.

(** A numeral followed by a separator is cut right behind the numeral. *)
Lemma splitAt_numeral (sep : ascii) (s rest : string) :
  digitValue sep = None ->
  forall acc v, readDigits s acc = Some v ->
                splitAt sep (s ++ String sep rest) = Some (s, rest).
Proof.
  intros Hsep. induction s as [| c s IH]; intros acc v H; simpl.
  - rewrite Ascii.eqb_refl. reflexivity.
  - simpl in H. destruct (digitValue c) as [d |] eqn:Hd; [| discriminate].
    destruct (Ascii.eqb_spec c sep) as [-> | _]; [congruence |].
    rewrite (IH _ _ H). reflexivity.
Qed.

End Padding.

(** ** [timeSpanToString] *)

Section TimeSpan.

Variables startDate endDate : Z.

(** The difference as the program has it, in binary64. *)
Let D : Z := Number_sub endDate startDate.
Let f : TimeSpan := timeSpanFields startDate endDate.

(** The four fields add up to that difference, whatever its sign. *)
Lemma timeSpanFields_sum :
  ts_hour f * 3600000 + ts_minutes f * 60000 + ts_seconds f * 1000
  + ts_millisecond f = D.
Proof.
  unfold f, D, timeSpanFields.
  cbn [ts_hour ts_minutes ts_seconds ts_millisecond]. ring.
Qed.

Lemma timeSpanFields_quot :
  ts_hour f = Z.quot D 3600000
  /\ ts_minutes f = Z.quot (Z.rem D 3600000) 60000
  /\ ts_seconds f = Z.quot (Z.rem (Z.rem D 3600000) 60000) 1000.
Proof. unfold f, D, timeSpanFields. repeat split. Qed.

(** For a difference that is not negative each field is the whole part of
    what is left over: nothing is rounded up. *)
Lemma timeSpanFields_range :
  0 <= D ->
  (0 <= ts_hour f
   /\ ts_hour f * 3600000 <= D < (ts_hour f + 1) * 3600000)
  /\ (0 <= ts_minutes f <= 59
      /\ ts_minutes f * 60000 <= D - ts_hour f * 3600000
         < (ts_minutes f + 1) * 60000)
  /\ (0 <= ts_seconds f <= 59
      /\ ts_seconds f * 1000
         <= D - ts_hour f * 3600000 - ts_minutes f * 60000
         < (ts_seconds f + 1) * 1000)
  /\ 0 <= ts_millisecond f <= 999.
Proof.
  intros H. unfold f, timeSpanFields.
  cbn [ts_hour ts_minutes ts_seconds ts_millisecond]. fold D.
  Z.to_euclidean_division_equations. lia.
Qed.

Lemma timeSpanToString_fields :
  timeSpanToString startDate endDate
  = (pad 2 (ts_hour f) ++ ":" ++ pad 2 (ts_minutes f) ++ ":"
       ++ pad 2 (ts_seconds f) ++ "." ++ pad 3 (ts_millisecond f))%string.
Proof. reflexivity. Qed.

Lemma timeSpanToString_parse :
  0 <= D ->
  parseTimeSpan (timeSpanToString startDate endDate)
  = Some (ts_hour f, ts_minutes f, ts_seconds f, ts_millisecond f).
Proof.
  intros H. destruct (timeSpanFields_range H) as ([Hh _] & [Hm _] & [Hs _] & Hms).
  rewrite timeSpanToString_fields. unfold parseTimeSpan.
  change (":" ++ ?s)%string with (String ":" s).
  rewrite (splitAt_numeral ":" _ _ eq_refl 0 _ (pad_read 2 _ Hh)).
  change (":" ++ ?s)%string with (String ":" s).
  rewrite (splitAt_numeral ":" _ _ eq_refl 0 _ (pad_read 2 _ (proj1 Hm))).
  change ("." ++ ?s)%string with (String "." s).
  rewrite (splitAt_numeral "." _ _ eq_refl 0 _ (pad_read 2 _ (proj1 Hs))).
  rewrite !pad_parse by lia. reflexivity.
Qed.

End TimeSpan.

Lemma timeSpanToString_shift (startDate d : Z) :
  timeSpanToString startDate (startDate + d) = timeSpanToString 0 d.
Proof.
  unfold timeSpanToString, Number_sub.
  replace (startDate + d - startDate) with d by ring.
  replace (d - 0) with d by ring. reflexivity.
Qed.

(** The difference of the program is not negative when the exact one is
    not, and is the exact one up to 2^53. *)
Lemma Number_sub_nonneg (startDate endDate : Z) :
  0 <= endDate - startDate -> 0 <= Number_sub endDate startDate.
Proof. apply toBinary64_nonneg. Qed.

Lemma Number_sub_exact (startDate endDate : Z) :
  0 <= endDate - startDate <= 2 ^ 53 ->
  Number_sub endDate startDate = endDate - startDate.
Proof.
  intros H. apply toBinary64_exact. rewrite Z.abs_eq; lia.
Qed.

(** C2, as stated, fails for the two valid dates that are furthest apart
    but one millisecond: their difference, 17279999999999999, is not a
    binary64 number, the program has 17280000000000000 for it and prints
    4800000000 hours, and the fields read back add up to
    17280000000000000. *)
Lemma timeSpanToString_sum_rounded :
  validTime (-8639999999999999) /\ validTime 8640000000000000
  /\ 8640000000000000 - (-8639999999999999) = 17279999999999999
  /\ timeSpanToString (-8639999999999999) 8640000000000000
     = "4800000000:00:00.000"%string
  /\ parseTimeSpan (timeSpanToString (-8639999999999999) 8640000000000000)
     = Some (4800000000, 0, 0, 0)
  /\ 4800000000 * 3600000 + 0 * 60000 + 0 * 1000 + 0 = 17280000000000000
  /\ (17280000000000000 =? 8640000000000000 - (-8639999999999999)) = false.
Proof.
  repeat split; try (vm_compute; reflexivity); intro C; discriminate C.
Qed.

(** C2, amended.  For two valid dates whose difference
    [endDate - startDate] is not negative, the fields H, M, S and ms read
    back from the string that [timeSpanToString] returns add up,
    [H * 3600000 + M * 60000 + S * 1000 + ms], to the binary64 difference
    of the two dates, which is [endDate - startDate] exactly whenever that
    is at most 2^53; and differences of one hour, thirty minutes, twenty
    seconds, 250 ms and 5 h 20 min 10 s 453 ms print as "01:00:00.000",
    "00:30:00.000", "00:00:20.000", "00:00:00.250" and "05:20:10.453". *)
Theorem timeSpanToString_reconstructs (startDate endDate : Z) :
  validTime startDate -> validTime endDate ->
  0 <= endDate - startDate ->
  (exists H M S ms,
      parseTimeSpan (timeSpanToString startDate endDate) = Some (H, M, S, ms)
      /\ H * 3600000 + M * 60000 + S * 1000 + ms
         = Number_sub endDate startDate
      /\ (endDate - startDate <= 2 ^ 53 ->
          H * 3600000 + M * 60000 + S * 1000 + ms = endDate - startDate))
  /\ timeSpanToString startDate (startDate + 3600000) = "01:00:00.000"%string
  /\ timeSpanToString startDate (startDate + 1800000) = "00:30:00.000"%string
  /\ timeSpanToString startDate (startDate + 20000) = "00:00:20.000"%string
  /\ timeSpanToString startDate (startDate + 250) = "00:00:00.250"%string
  /\ timeSpanToString startDate (startDate + 19210453) = "05:20:10.453"%string.
Proof.
  intros _ _ H. split.
  - exists (ts_hour (timeSpanFields startDate endDate)),
      (ts_minutes (timeSpanFields startDate endDate)),
      (ts_seconds (timeSpanFields startDate endDate)),
      (ts_millisecond (timeSpanFields startDate endDate)).
    split; [| split].
    + apply timeSpanToString_parse, Number_sub_nonneg, H.
    + apply timeSpanFields_sum.
    + intros B. rewrite timeSpanFields_sum. apply Number_sub_exact. lia.
  - rewrite !timeSpanToString_shift. repeat split; reflexivity.
Qed.

Lemma timeSpanToString_reconstructs_witness :
  validTime 949399200000 /\ validTime 949418410453
  /\ 0 <= 949418410453 - 949399200000
  /\ exists H M S ms,
      parseTimeSpan (timeSpanToString 949399200000 949418410453)
      = Some (H, M, S, ms)
      /\ H * 3600000 + M * 60000 + S * 1000 + ms
         = Number_sub 949418410453 949399200000
      /\ (949418410453 - 949399200000 <= 2 ^ 53 ->
          H * 3600000 + M * 60000 + S * 1000 + ms
          = 949418410453 - 949399200000).
Proof.
  assert (V1 : validTime 949399200000) by (intro C; discriminate C).
  assert (V2 : validTime 949418410453) by (intro C; discriminate C).
  assert (P : 0 <= 949418410453 - 949399200000) by (intro C; discriminate C).
  split; [exact V1 | split; [exact V2 | split; [exact P |]]].
  exact (proj1 (timeSpanToString_reconstructs _ _ V1 V2 P)).
Defined.

(** C6, as stated, fails for the same two dates: the whole hours in their
    difference, 17279999999999999 ms, are 4799999999, with 59 minutes, 59
    seconds and 999 ms left over, and the program prints 4800000000 hours
    and zeros, the fields of the difference rounded to binary64. *)
Lemma timeSpanToString_hours_rounded :
  validTime (-8639999999999999) /\ validTime 8640000000000000
  /\ 0 <= 8640000000000000 - (-8639999999999999)
  /\ Z.quot (8640000000000000 - (-8639999999999999)) 3600000 = 4799999999
  /\ Z.rem (8640000000000000 - (-8639999999999999)) 3600000 = 3599999
  /\ timeSpanToString (-8639999999999999) 8640000000000000
     = ("4800000000" ++ ":" ++ "00" ++ ":" ++ "00" ++ "." ++ "000")%string
  /\ parseDecimal "4800000000" = Some 4800000000
  /\ (4800000000 =? Z.quot (8640000000000000 - (-8639999999999999)) 3600000)
     = false.
Proof.
  repeat split; try (vm_compute; reflexivity); intro C; discriminate C.
Qed.

(** C6, amended.  For two valid dates whose difference is not negative the
    returned string is hh:mm:ss.mmm where hh, mm, ss and mmm are decimal
    numerals: hh has two digits at least and more than [k] digits as soon
    as the hours reach [10 ^ k] (three or more from a difference of 100
    hours on); mm and ss have exactly two digits and values from 0 to 59;
    mmm has exactly three digits and a value from 0 to 999; and each value
    is the quotient truncated toward zero, the whole part of what the
    larger fields leave over, never rounded up, of the binary64 difference
    of the two dates, which is the exact difference whenever that is at
    most 2^53. *)
Theorem timeSpanToString_shape (startDate endDate : Z) :
  validTime startDate -> validTime endDate ->
  0 <= endDate - startDate ->
  let D := Number_sub endDate startDate in
  let H := Z.quot D 3600000 in
  let M := Z.quot (Z.rem D 3600000) 60000 in
  let S := Z.quot (Z.rem (Z.rem D 3600000) 60000) 1000 in
  let ms := D - 3600000 * H - M * 60000 - S * 1000 in
  (endDate - startDate <= 2 ^ 53 -> D = endDate - startDate)
  /\ exists hh mm ss mmm : string,
    timeSpanToString startDate endDate
    = (hh ++ ":" ++ mm ++ ":" ++ ss ++ "." ++ mmm)%string
    /\ (parseDecimal hh = Some H
        /\ (2 <= String.length hh)%nat
        /\ (forall k : nat, 10 ^ Z.of_nat k <= H -> (k < String.length hh)%nat)
        /\ (360000000 <= endDate - startDate -> (3 <= String.length hh)%nat)
        /\ H * 3600000 <= D < (H + 1) * 3600000)
    /\ (parseDecimal mm = Some M
        /\ String.length mm = 2%nat
        /\ 0 <= M <= 59
        /\ M * 60000 <= D - H * 3600000 < (M + 1) * 60000)
    /\ (parseDecimal ss = Some S
        /\ String.length ss = 2%nat
        /\ 0 <= S <= 59
        /\ S * 1000 <= D - H * 3600000 - M * 60000 < (S + 1) * 1000)
    /\ (parseDecimal mmm = Some ms
        /\ String.length mmm = 3%nat
        /\ 0 <= ms <= 999).
Proof.
  intros _ _ HD0 D H M S ms.
  assert (HD : 0 <= D) by (apply Number_sub_nonneg, HD0).
  split; [intros B; apply Number_sub_exact; lia |].
  destruct (timeSpanFields_range startDate endDate HD)
    as ([Hh Hh'] & [Hm Hm'] & [Hs Hs'] & Hms).
  change (ts_hour (timeSpanFields startDate endDate)) with H in *.
  change (ts_minutes (timeSpanFields startDate endDate)) with M in *.
  change (ts_seconds (timeSpanFields startDate endDate)) with S in *.
  change (ts_millisecond (timeSpanFields startDate endDate)) with ms in *.
  fold D in Hh', Hm', Hs'.
  exists (pad 2 H), (pad 2 M), (pad 2 S), (pad 3 ms).
  split; [reflexivity |].
  assert (W : forall k : nat, 10 ^ Z.of_nat k <= H ->
                              (k < String.length (pad 2 H))%nat).
  { intros k Hk.
    pose proof (readDigits_bound _ 0 H (Z.le_refl 0) (pad_read 2 H Hh)) as B.
    destruct (Nat.lt_ge_cases k (String.length (pad 2 H))) as [L | L];
      [exact L | exfalso].
    assert (10 ^ Z.of_nat (String.length (pad 2 H)) <= 10 ^ Z.of_nat k)
      by (apply Z.pow_le_mono_r; lia).
    lia. }
  repeat split; try lia.
  - apply pad_parse, Hh.
  - apply pad_length_ge.
  - exact W.
  - intros Hbig. apply (W 2%nat). change (10 ^ Z.of_nat 2) with 100.
    assert (360000000 <= D)
      by (apply toBinary64_lower; [intro C; discriminate C | lia | lia]).
    lia.
  - apply pad_parse; lia.
  - apply pad_length_exact; [lia | change (10 ^ Z.of_nat 2) with 100; lia].
  - apply pad_parse; lia.
  - apply pad_length_exact; [lia | change (10 ^ Z.of_nat 2) with 100; lia].
  - apply pad_parse; lia.
  - apply pad_length_exact; [lia | change (10 ^ Z.of_nat 3) with 1000; lia].
Qed.

Lemma timeSpanToString_shape_witness :
  validTime 0 /\ validTime 360000000
  /\ 0 <= 360000000 - 0
  /\ exists hh mm ss mmm : string,
      timeSpanToString 0 360000000
      = (hh ++ ":" ++ mm ++ ":" ++ ss ++ "." ++ mmm)%string
      /\ (3 <= String.length hh)%nat /\ String.length mm = 2%nat
      /\ String.length ss = 2%nat /\ String.length mmm = 3%nat.
Proof.
  assert (V1 : validTime 0) by (intro C; discriminate C).
  assert (V2 : validTime 360000000) by (intro C; discriminate C).
  assert (P : 0 <= 360000000 - 0) by (intro C; discriminate C).
  split; [exact V1 | split; [exact V2 | split; [exact P |]]].
  destruct (timeSpanToString_shape 0 360000000 V1 V2 P)
    as (_ & hh & mm & ss & mmm & E & (_ & _ & _ & L & _) & (_ & Lm & _)
        & (_ & Ls & _) & (_ & Lms & _)).
  exists hh, mm, ss, mmm. repeat split; try assumption.
  apply L. intro C; discriminate C.
Defined.

(** ** [isLeapYear] *)

Section LeapYear.

Variable LocalTZA : Z -> Z.

(** From year 0 on the function is the Gregorian rule. *)
Lemma isLeapYear_from_year_0 (date : Z) :
  0 <= getFullYear LocalTZA date ->
  isLeapYear LocalTZA date = gregorianLeap (getFullYear LocalTZA date).
Proof.
  intros H. unfold isLeapYear, gregorianLeap.
  set (Y := getFullYear LocalTZA date) in *.
  pose proof (Z.rem_bound_pos Y 4 H ltac:(lia)).
  destruct (Z.gtb_spec (Z.rem Y 4) 0), (Z.eqb_spec (Z.rem Y 4) 0); try lia;
    simpl; try reflexivity.
  destruct (Z.rem Y 100 =? 0), (Z.rem Y 400 =? 0); reflexivity.
Qed.

(** Before year 0 the first test, [Y % 4 > 0], never fires: a remainder of a
    negative year is not positive.  Every such year that is not a multiple
    of 100 is reported as a leap year. *)
Lemma isLeapYear_before_year_0 (date : Z) :
  getFullYear LocalTZA date < 0 ->
  isLeapYear LocalTZA date =
  negb (Z.rem (getFullYear LocalTZA date) 100 =? 0)
  || (Z.rem (getFullYear LocalTZA date) 400 =? 0).
Proof.
  intros H. unfold isLeapYear.
  set (Y := getFullYear LocalTZA date) in *.
  pose proof (Z.rem_nonpos Y 4 ltac:(lia) ltac:(lia)).
  destruct (Z.gtb_spec (Z.rem Y 4) 0); [lia |].
  destruct (Z.rem Y 100 =? 0), (Z.rem Y 400 =? 0); reflexivity.
Qed.

(** The documented years. *)
Lemma isLeapYear_documented (date : Z) :
  (getFullYear LocalTZA date = 1900 -> isLeapYear LocalTZA date = false)
  /\ (getFullYear LocalTZA date = 2000 -> isLeapYear LocalTZA date = true)
  /\ (getFullYear LocalTZA date = 2001 -> isLeapYear LocalTZA date = false)
  /\ (getFullYear LocalTZA date = 2012 -> isLeapYear LocalTZA date = true)
  /\ (getFullYear LocalTZA date = 2015 -> isLeapYear LocalTZA date = false).
Proof.
  unfold isLeapYear. repeat split; intros ->; reflexivity.
Qed.

(** All the dates of one local year get the same answer. *)
Lemma isLeapYear_within_year (y d1 d2 : Z) :
  TimeFromYear y <= LocalTime LocalTZA d1 < TimeFromYear (y + 1) ->
  TimeFromYear y <= LocalTime LocalTZA d2 < TimeFromYear (y + 1) ->
  isLeapYear LocalTZA d1 = isLeapYear LocalTZA d2.
Proof.
  intros H1 H2. unfold isLeapYear, getFullYear.
  rewrite (YearFromTime_unique y _ H1), (YearFromTime_unique y _ H2).
  reflexivity.
Qed.

End LeapYear.

(** C1.  The first of July of year -1, on a machine on UTC: [isLeapYear]
    returns [true] although -1 is not divisible by 4 and the Gregorian rule
    gives [false]. *)
Theorem isLeapYear_year_minus_1 :
  MakeDate (MakeDay (-1) 6 1) 0 = -62183116800000
  /\ getFullYear utc (-62183116800000) = -1
  /\ Z.rem (-1) 4 = -1
  /\ gregorianLeap (getFullYear utc (-62183116800000)) = false
  /\ isLeapYear utc (-62183116800000) = true.
Proof. repeat split. Qed.

(** C9.  Two dates with the same year component get the same answer from
    [isLeapYear], whatever their months, days and times of day, and also
    on machines in different time zones. *)
Theorem isLeapYear_year_only (LocalTZA1 LocalTZA2 : Z -> Z) (d1 d2 : Z) :
  getFullYear LocalTZA1 d1 = getFullYear LocalTZA2 d2 ->
  isLeapYear LocalTZA1 d1 = isLeapYear LocalTZA2 d2.
Proof. unfold isLeapYear. intros ->. reflexivity. Qed.

Lemma isLeapYear_year_only_witness :
  getFullYear utc 1457136000000 = getFullYear utc 1480539599999
  /\ isLeapYear utc 1457136000000 = isLeapYear utc 1480539599999.
Proof.
  assert (E : getFullYear utc 1457136000000 = getFullYear utc 1480539599999)
    by reflexivity.
  split; [exact E | exact (isLeapYear_year_only utc utc _ _ E)].
Defined.

(** ** [angleBetweenClockHands] *)

Section ClockHands.

Lemma HourFromTime_range (t : Z) : 0 <= HourFromTime t < 24.
Proof. apply Z.mod_pos_bound. reflexivity. Qed.

Lemma MinFromTime_range (t : Z) : 0 <= MinFromTime t < 60.
Proof. apply Z.mod_pos_bound. reflexivity. Qed.

Lemma in_range_of_nat (n : nat) (z : Z) :
  0 <= z < Z.of_nat n -> In z (map Z.of_nat (seq 0 n)).
Proof.
  intros H. rewrite <- (Z2Nat.id z) by lia.
  apply in_map, in_seq. lia.
Qed.

(** A test that holds at each of the 24 * 60 local times holds at the local
    time of every date. *)
Lemma everyTime_sound (P : Z -> Z -> bool) :
  everyTime P = true ->
  forall h m, 0 <= h < 24 -> 0 <= m < 60 -> P h m = true.
Proof.
  unfold everyTime. rewrite forallb_forall. intros H h m Hh Hm.
  specialize (H h (in_range_of_nat 24 h Hh)).
  rewrite forallb_forall in H. apply H, (in_range_of_nat 60 m Hm).
Qed.

Lemma shiftHours_range (h : Z) :
  0 <= h < 24 -> 0 <= shiftHours h < 24 /\ shiftHours h = (h - 3) mod 24.
Proof.
  intros H. unfold shiftHours. destruct (Z.ltb_spec (h - 3) 0).
  - split; [lia |]. apply Z.mod_unique with (q := -1); lia.
  - split; [lia |]. symmetry. apply Z.mod_small. lia.
Qed.

(** The [switch] is the table, and 0 off the table. *)
Lemma remapHours_table (h : Z) :
  remapHours h = if h >? 12 then tableHour h else h.
Proof.
  unfold remapHours. destruct (h >? 12); [| reflexivity].
  destruct h as [| p | p]; try reflexivity.
  do 5 (try destruct p as [p | p |]; try reflexivity).
Qed.

Lemma tableHour_off (h : Z) :
  ~ In h (map fst hourTable) -> tableHour h = 0.
Proof.
  intros H. unfold tableHour.
  destruct (find (fun p => fst p =? h) hourTable) as [p |] eqn:F;
    [| reflexivity].
  apply find_some in F. destruct F as [Hin Heq]. apply Z.eqb_eq in Heq.
  exfalso. apply H. rewrite <- Heq. apply in_map, Hin.
Qed.

Lemma remapHours_shiftHours (h : Z) : remapHours (shiftHours h) = hour12 h.
Proof. rewrite remapHours_table. reflexivity. Qed.

Variable LocalTZA : Z -> Z.

Lemma angleBetweenClockHands_steps (date : Z) :
  angleBetweenClockHands LocalTZA date
  = radians (foldAngle (rawAngle (hour12 (getHours LocalTZA date))
                                 (getMinutes LocalTZA date))).
Proof.
  unfold angleBetweenClockHands, new_Date.
  rewrite remapHours_shiftHours. reflexivity.
Qed.

(** Proof by cases on the local time of the date. *)
Lemma at_every_date (P : Z -> Z -> bool) :
  everyTime P = true ->
  forall date, P (getHours LocalTZA date) (getMinutes LocalTZA date) = true.
Proof.
  intros H date.
  apply (everyTime_sound P H); [apply HourFromTime_range | apply MinFromTime_range].
Qed.

(** Two binary64 numbers that are the same at each of the 24 * 60 local
    times are the same at the local time of every date. *)
Lemma float_eq_at_every_date (F G : Z -> Z -> float) :
  everyTime (fun h m => Leibniz.eqb (F h m) (G h m)) = true ->
  forall date,
    F (getHours LocalTZA date) (getMinutes LocalTZA date)
    = G (getHours LocalTZA date) (getMinutes LocalTZA date).
Proof.
  intros H date. apply Leibniz.eqb_spec.
  apply (at_every_date (fun h m => Leibniz.eqb (F h m) (G h m)) H).
Qed.

End ClockHands.

(** Three hours ahead of UTC the four documented inputs give the documented
    angles. *)
Lemma angleBetweenClockHands_three_hours_ahead :
  (Date_UTC 2016 2 5 0 0 = Finite 1457136000000
   /\ angleBetweenClockHands utcPlus3 1457136000000 = 0%float)
  /\ (Date_UTC 2016 3 5 3 0 = Finite 1459825200000
      /\ angleBetweenClockHands utcPlus3 1459825200000 = (Math_PI / 2)%float)
  /\ (Date_UTC 2016 3 5 18 0 = Finite 1459879200000
      /\ angleBetweenClockHands utcPlus3 1459879200000 = Math_PI)
  /\ (Date_UTC 2016 3 5 21 0 = Finite 1459890000000
      /\ angleBetweenClockHands utcPlus3 1459890000000 = (Math_PI / 2)%float).
Proof. repeat split; vm_compute; reflexivity. Qed.

(** C3.  On a machine on UTC the four documented inputs give pi / 2, 0,
    pi / 2 and pi, none of them the documented angle (0, pi / 2, pi and
    pi / 2). *)
Theorem angleBetweenClockHands_on_utc :
  (Date_UTC 2016 2 5 0 0 = Finite 1457136000000
   /\ angleBetweenClockHands utc 1457136000000 = (Math_PI / 2)%float
   /\ ((Math_PI / 2) =? 0)%float = false)
  /\ (Date_UTC 2016 3 5 3 0 = Finite 1459825200000
      /\ angleBetweenClockHands utc 1459825200000 = 0%float
      /\ (0 =? (Math_PI / 2))%float = false)
  /\ (Date_UTC 2016 3 5 18 0 = Finite 1459879200000
      /\ angleBetweenClockHands utc 1459879200000 = (Math_PI / 2)%float
      /\ ((Math_PI / 2) =? Math_PI)%float = false)
  /\ (Date_UTC 2016 3 5 21 0 = Finite 1459890000000
      /\ angleBetweenClockHands utc 1459890000000 = Math_PI
      /\ (Math_PI =? (Math_PI / 2))%float = false).
Proof. repeat split; vm_compute; reflexivity. Qed.

(** C4.  The hour that the angle is computed from is the local hour of the
    date, from 0 to 23, less 3, plus 24 when that is negative, which is
    [(local - 3) mod 24], again from 0 to 23; up to 12 it is kept, and above
    12 the [switch] sends it through the table 13 to 1, ..., 23 to 11, and
    anything off the table to 0. *)
Theorem angleBetweenClockHands_hour (LocalTZA : Z -> Z) (date : Z) :
  let localHour := getHours LocalTZA date in
  let shifted := localHour - 3 in
  let wrapped := if shifted <? 0 then shifted + 24 else shifted in
  localHour = HourFromTime (date + LocalTZA date)
  /\ 0 <= localHour <= 23
  /\ shiftHours localHour = wrapped
  /\ wrapped = (localHour - 3) mod 24
  /\ 0 <= wrapped <= 23
  /\ remapHours wrapped = (if wrapped >? 12 then tableHour wrapped else wrapped)
  /\ map remapHours [13; 14; 15; 16; 17; 18; 19; 20; 21; 22; 23]
     = [1; 2; 3; 4; 5; 6; 7; 8; 9; 10; 11]
  /\ (forall h, 12 < h -> ~ In h (map fst hourTable) -> remapHours h = 0)
  /\ angleBetweenClockHands LocalTZA date
     = radians (foldAngle (rawAngle (remapHours wrapped)
                                    (getMinutes LocalTZA date))).
Proof.
  intros localHour shifted wrapped.
  pose proof (HourFromTime_range (LocalTime LocalTZA date)) as R.
  fold (getHours LocalTZA date) in R. fold localHour in R.
  destruct (shiftHours_range localHour R) as [R' E].
  change (shiftHours localHour) with wrapped in R', E.
  repeat split; try lia; try assumption.
  - apply remapHours_table.
  - intros h Hgt Hoff. rewrite remapHours_table.
    destruct (Z.gtb_spec h 12); [apply tableHour_off, Hoff | lia].
Qed.

(** C5.  With hour12 the preprocessed hour and minute the local minute of
    the date, the raw angle in degrees is
    [|0.5 * (60 * hour12 + minute) - 6 * minute|], computed without any
    rounding (twice the raw angle is the integer [|60 * hour12 - 11 * minute|]);
    a raw angle above 180 is divided by 3, which is not [360 - raw] (330
    becomes 110, not 30); and the angle in degrees is converted to radians
    once, as the last step, by the factor pi / 180: the returned number is
    the product of pi and the angle, in either order, divided by 180. *)
Theorem angleBetweenClockHands_formula (LocalTZA : Z -> Z) (date : Z) :
  let h12 := remapHours (shiftHours (getHours LocalTZA date)) in
  let minute := getMinutes LocalTZA date in
  let raw :=
    PrimFloat.abs (0.5 * (60 * num h12 + num minute) - 6 * num minute)%float in
  let deg := if (180 <? raw)%float then (raw / 3)%float else raw in
  angleBetweenClockHands LocalTZA date = ((Math_PI * deg) / 180)%float
  /\ angleBetweenClockHands LocalTZA date = ((deg * Math_PI) / 180)%float
  /\ (2 * raw)%float = num (Z.abs (60 * h12 - 11 * minute))
  /\ (rawAngle 11 0 = 330%float
      /\ foldAngle (rawAngle 11 0) = 110%float
      /\ reflexAngle (rawAngle 11 0) = 30%float).
Proof.
  intros h12 minute raw deg. split; [reflexivity | split; [| split]].
  - rewrite angleBetweenClockHands_steps.
    subst deg raw h12 minute. rewrite remapHours_shiftHours.
    apply (float_eq_at_every_date LocalTZA
             (fun h m => radians (foldAngle (rawAngle (hour12 h) m)))
             (fun h m =>
                ((foldAngle (rawAngle (hour12 h) m) * Math_PI) / 180)%float)).
    vm_compute. reflexivity.
  - subst raw h12 minute. rewrite remapHours_shiftHours.
    apply (float_eq_at_every_date LocalTZA
             (fun h m => (2 * rawAngle (hour12 h) m)%float)
             (fun h m => num (Z.abs (60 * hour12 h - 11 * m)))).
    vm_compute. reflexivity.
  - repeat split; vm_compute; reflexivity.
Qed.

(** C10.  For every date the returned angle is from 0 to pi: the raw angle
    in degrees is from 0 to 360; above 180 it is divided by 3, which leaves
    120 at most; so the angle in degrees is from 0 to 180, and the returned
    number is neither negative nor above pi. *)
Theorem angleBetweenClockHands_range (LocalTZA : Z -> Z) (date : Z) :
  let raw := rawAngle (remapHours (shiftHours (getHours LocalTZA date)))
                      (getMinutes LocalTZA date) in
  let deg := if (180 <? raw)%float then (raw / 3)%float else raw in
  angleBetweenClockHands LocalTZA date = ((Math_PI * deg) / 180)%float
  /\ ((0 <=? raw)%float = true /\ (raw <=? 360)%float = true)
  /\ ((180 <? raw)%float = true -> (raw / 3 <=? 120)%float = true)
  /\ ((0 <=? deg)%float = true /\ (deg <=? 180)%float = true)
  /\ ((0 <=? angleBetweenClockHands LocalTZA date)%float = true
      /\ (angleBetweenClockHands LocalTZA date <=? Math_PI)%float = true).
Proof.
  intros raw deg.
  assert (E : angleBetweenClockHands LocalTZA date
              = ((Math_PI * deg) / 180)%float) by reflexivity.
  rewrite E. subst deg raw. rewrite remapHours_shiftHours.
  pose proof (at_every_date LocalTZA
    (fun h m =>
       let raw := rawAngle (hour12 h) m in
       let deg := if (180 <? raw)%float then (raw / 3)%float else raw in
       ((0 <=? raw) && (raw <=? 360)
        && implb (180 <? raw) (raw / 3 <=? 120)
        && ((0 <=? deg) && (deg <=? 180))
        && ((0 <=? (Math_PI * deg) / 180)
            && ((Math_PI * deg) / 180 <=? Math_PI)))%float)
    ltac:(vm_compute; reflexivity) date) as H.
  cbv zeta in H. rewrite !andb_true_iff in H.
  destruct H as [[[[R0 R360] F] [D0 D180]] [A0 Api]].
  repeat split; try assumption.
  intros Hgt. rewrite Hgt in F. exact F.
Qed.

(** ** The two parsers *)

(** Both parsers hand the string to [Date.parse] and return its answer as
    it is: they are the same function, and what they accept and return is
    what the parser of the machine accepts and returns. *)
Lemma parsers_forward (Date_parse : string -> TimeValue) (value : string) :
  parseDataFromRfc2822 Date_parse value = Date_parse value
  /\ parseDataFromIso8601 Date_parse value = Date_parse value.
Proof. split; reflexivity. Qed.

(** * Further properties *)

(** ** [isLeapYear], further *)

Section LeapYearFurther.

Lemma DaysInYear_step (y : Z) :
  DayFromYear (y + 1) - DayFromYear y = DaysInYear y.
Proof.
  unfold DayFromYear, DaysInYear.
  destruct (Z.eqb_spec (y mod 4) 0), (Z.eqb_spec (y mod 100) 0),
    (Z.eqb_spec (y mod 400) 0); cbn [negb];
    Z.div_mod_to_equations; lia.
Qed.

Lemma gregorianLeap_DaysInYear (y : Z) :
  0 <= y -> DaysInYear y = if gregorianLeap y then 366 else 365.
Proof.
  intros H. unfold gregorianLeap, DaysInYear.
  rewrite !Z.rem_mod_nonneg by lia.
  destruct (y mod 4 =? 0), (y mod 100 =? 0), (y mod 400 =? 0); reflexivity.
Qed.

Lemma DayFromYear_cycle (y : Z) :
  DayFromYear (y + 400) = DayFromYear y + 146097.
Proof. unfold DayFromYear. Z.div_mod_to_equations. lia. Qed.

Lemma YearFromTime_cycle (t : Z) :
  YearFromTime (t + gregorianCycle) = YearFromTime t + 400.
Proof.
  apply YearFromTime_unique. destruct (YearFromTime_spec t) as [L U].
  unfold TimeFromYear, gregorianCycle in *.
  replace (YearFromTime t + 400 + 1) with (YearFromTime t + 1 + 400) by ring.
  rewrite !DayFromYear_cycle. unfold msPerDay in *. lia.
Qed.

Lemma gregorianLeap_cycle (y : Z) :
  0 <= y -> gregorianLeap (y + 400) = gregorianLeap y.
Proof.
  intros H. unfold gregorianLeap. rewrite !Z.rem_mod_nonneg by lia.
  replace ((y + 400) mod 4) with (y mod 4)
    by (Z.div_mod_to_equations; lia).
  replace ((y + 400) mod 100) with (y mod 100)
    by (Z.div_mod_to_equations; lia).
  replace ((y + 400) mod 400) with (y mod 400)
    by (Z.div_mod_to_equations; lia).
  reflexivity.
Qed.

(** Days before a month and in it stay inside the year. *)
Lemma daysBeforeMonth_range (leap : bool) (month date : Z) :
  0 <= month <= 11 -> 1 <= date <= DaysInMonth leap month ->
  0 <= daysBeforeMonth leap month + date - 1 < (if leap then 366 else 365).
Proof.
  intros Hm Hd.
  assert (C : month = 0 \/ month = 1 \/ month = 2 \/ month = 3 \/ month = 4
              \/ month = 5 \/ month = 6 \/ month = 7 \/ month = 8
              \/ month = 9 \/ month = 10 \/ month = 11) by lia.
  repeat match goal with H : _ \/ _ |- _ => destruct H end;
    subst month; destruct leap;
    cbv beta iota zeta delta [daysBeforeMonth DaysInMonth Z.eqb Pos.eqb orb] in *;
    lia.
Qed.

(** The year of a calendar date is its year. *)
Lemma YearFromTime_calendarDate (year month date time : Z) :
  calendarDate year month date time ->
  YearFromTime (MakeDate (MakeDay year month date) time) = year.
Proof.
  intros (Hm & Hd & Ht). apply YearFromTime_unique.
  pose proof (daysBeforeMonth_range _ _ _ Hm Hd) as R.
  pose proof (DaysInYear_step year) as S.
  unfold InLeapYear in R.
  unfold MakeDate, MakeDay, TimeFromYear.
  rewrite (Z.div_small month 12), (Z.mod_small month 12), Z.add_0_r by lia.
  unfold InLeapYear.
  assert (Y : DaysInYear year = 365 \/ DaysInYear year = 366).
  { unfold DaysInYear.
    destruct (negb _); [| destruct (negb _); [| destruct (negb _)]]; lia. }
  unfold msPerDay in *.
  destruct Y as [Y | Y]; rewrite Y in *; cbn [Z.eqb Pos.eqb] in *; lia.
Qed.

End LeapYearFurther.

(** X1.  For a date whose local year is 0 or later, [isLeapYear] is the
    Gregorian rule of that year: divisible by 4, and not by 100 unless by
    400. *)
Theorem isLeapYear_gregorian (LocalTZA : Z -> Z) (date : Z) :
  0 <= getFullYear LocalTZA date ->
  isLeapYear LocalTZA date = gregorianLeap (getFullYear LocalTZA date).
Proof.
  intros H. apply isLeapYear_from_year_0. exact H.
Qed.

Lemma isLeapYear_gregorian_witness :
  0 <= getFullYear utcPlus3 951868800000
  /\ isLeapYear utcPlus3 951868800000
     = gregorianLeap (getFullYear utcPlus3 951868800000).
Proof.
  assert (P : 0 <= getFullYear utcPlus3 951868800000)
    by (intro C; discriminate C).
  split; [exact P | exact (isLeapYear_gregorian utcPlus3 951868800000 P)].
Defined.

(** X2.  For a date whose local year is 0 or later, [isLeapYear] tells how
    long that year is on the time line of [Date]: from its first instant to
    the first instant of the next year there are 366 days when it returns
    [true] and 365 days when it returns [false]. *)
Theorem isLeapYear_length_of_year (LocalTZA : Z -> Z) (date : Z) :
  0 <= getFullYear LocalTZA date ->
  TimeFromYear (getFullYear LocalTZA date + 1)
  - TimeFromYear (getFullYear LocalTZA date)
  = (if isLeapYear LocalTZA date then 366 else 365) * msPerDay.
Proof.
  intros H. rewrite (isLeapYear_from_year_0 LocalTZA date H).
  rewrite <- (gregorianLeap_DaysInYear _ H), <- DaysInYear_step.
  unfold TimeFromYear. ring.
Qed.

Lemma isLeapYear_length_of_year_witness :
  0 <= getFullYear utc 951868800000
  /\ TimeFromYear (getFullYear utc 951868800000 + 1)
     - TimeFromYear (getFullYear utc 951868800000)
     = (if isLeapYear utc 951868800000 then 366 else 365) * msPerDay.
Proof.
  assert (P : 0 <= getFullYear utc 951868800000) by (intro C; discriminate C).
  split; [exact P | exact (isLeapYear_length_of_year utc 951868800000 P)].
Defined.

(** X3.  For a date whose local year is negative the test [% 4 > 0] never
    fires, and [isLeapYear] returns [true] unless the year is a multiple of
    100 and not of 400: every negative year that is not a multiple of 100 is
    reported as a leap year, divisible by 4 or not. *)
Theorem isLeapYear_negative_year (LocalTZA : Z -> Z) (date : Z) :
  getFullYear LocalTZA date < 0 ->
  isLeapYear LocalTZA date
  = (negb (Z.rem (getFullYear LocalTZA date) 100 =? 0)
     || (Z.rem (getFullYear LocalTZA date) 400 =? 0))
  /\ (Z.rem (getFullYear LocalTZA date) 100 <> 0 ->
      isLeapYear LocalTZA date = true).
Proof.
  intros H. pose proof (isLeapYear_before_year_0 LocalTZA date H) as E.
  split; [exact E |].
  intros N. rewrite E.
  destruct (Z.eqb_spec (Z.rem (getFullYear LocalTZA date) 100) 0);
    [contradiction | reflexivity].
Qed.

Lemma isLeapYear_negative_year_witness :
  getFullYear utc (-62183116800000) < 0
  /\ isLeapYear utc (-62183116800000) = true.
Proof.
  assert (P : getFullYear utc (-62183116800000) < 0) by reflexivity.
  split; [exact P |].
  apply (proj2 (isLeapYear_negative_year utc (-62183116800000) P)).
  intro C; discriminate C.
Defined.

(** X4.  For a date that is, in local time, any instant of any day of any
    month of a year [year >= 0], [isLeapYear] is the Gregorian rule of
    [year]: the month, the day and the time of day play no part. *)
Theorem isLeapYear_calendarDate (LocalTZA : Z -> Z)
  (date year month day time : Z) :
  0 <= year ->
  calendarDate year month day time ->
  LocalTime LocalTZA date = MakeDate (MakeDay year month day) time ->
  isLeapYear LocalTZA date = gregorianLeap year.
Proof.
  intros Hy Hc Hl.
  assert (E : getFullYear LocalTZA date = year).
  { unfold getFullYear. rewrite Hl. apply YearFromTime_calendarDate, Hc. }
  rewrite <- E in Hy |- *. apply isLeapYear_from_year_0, Hy.
Qed.

Lemma isLeapYear_calendarDate_witness :
  0 <= 2000
  /\ calendarDate 2000 1 29 86399999
  /\ LocalTime utcPlus3 951857999999 = MakeDate (MakeDay 2000 1 29) 86399999
  /\ isLeapYear utcPlus3 951857999999 = gregorianLeap 2000.
Proof.
  assert (P : 0 <= 2000) by (intro C; discriminate C).
  assert (Q : calendarDate 2000 1 29 86399999).
  { repeat split; intro C; discriminate C. }
  assert (R : LocalTime utcPlus3 951857999999
              = MakeDate (MakeDay 2000 1 29) 86399999) by reflexivity.
  split; [exact P | split; [exact Q | split; [exact R |]]].
  exact (isLeapYear_calendarDate utcPlus3 _ _ _ _ _ P Q R).
Defined.

(** X5.  On a machine whose offset from UTC is the same 400 Gregorian years
    (146097 days) later, a date whose local year is 0 or later and the date
    146097 days after it get the same answer from [isLeapYear], and the
    later date is in the year 400 years on. *)
Theorem isLeapYear_cycle (LocalTZA : Z -> Z) (date : Z) :
  LocalTZA (date + gregorianCycle) = LocalTZA date ->
  0 <= getFullYear LocalTZA date ->
  getFullYear LocalTZA (date + gregorianCycle)
  = getFullYear LocalTZA date + 400
  /\ isLeapYear LocalTZA (date + gregorianCycle) = isLeapYear LocalTZA date.
Proof.
  intros Hz Hy.
  assert (E : getFullYear LocalTZA (date + gregorianCycle)
              = getFullYear LocalTZA date + 400).
  { unfold getFullYear, LocalTime. rewrite Hz.
    replace (date + gregorianCycle + LocalTZA date)
      with (date + LocalTZA date + gregorianCycle) by ring.
    apply YearFromTime_cycle. }
  split; [exact E |].
  rewrite (isLeapYear_from_year_0 LocalTZA date Hy).
  rewrite isLeapYear_from_year_0 by (rewrite E; lia).
  rewrite E. apply gregorianLeap_cycle, Hy.
Qed.

Lemma isLeapYear_cycle_witness :
  utcPlus3 (951868800000 + gregorianCycle) = utcPlus3 951868800000
  /\ 0 <= getFullYear utcPlus3 951868800000
  /\ isLeapYear utcPlus3 (951868800000 + gregorianCycle)
     = isLeapYear utcPlus3 951868800000.
Proof.
  assert (P : utcPlus3 (951868800000 + gregorianCycle) = utcPlus3 951868800000)
    by reflexivity.
  assert (Q : 0 <= getFullYear utcPlus3 951868800000)
    by (intro C; discriminate C).
  split; [exact P | split; [exact Q |]].
  exact (proj2 (isLeapYear_cycle utcPlus3 951868800000 P Q)).
Defined.

(** ** [timeSpanToString], further *)

Section TimeSpanFurther.

Lemma occurs_app (c : ascii) (a b : string) :
  occurs c (a ++ b) = occurs c a || occurs c b.
Proof.
  induction a as [| x a IH]; simpl; [reflexivity |].
  rewrite IH. apply orb_assoc.
Qed.

Lemma digitChar_cases (d : Z) :
  In (digitChar d) ["0"; "1"; "2"; "3"; "4"; "5"; "6"; "7"; "8"; "9"]%char.
Proof.
  unfold digitChar. destruct d as [| p | p]; simpl; auto 12.
  do 4 (try destruct p as [p | p |]; simpl; auto 12).
Qed.

(** A character that is not a digit does not occur among printed digits. *)
Lemma occurs_digitsOf (c : ascii) (fuel : nat) :
  digitValue c = None ->
  forall n acc, occurs c (digitsOf fuel n acc) = occurs c acc.
Proof.
  intros Hc. induction fuel as [| fuel IH]; intros n acc; simpl.
  - reflexivity.
  - assert (E : Ascii.eqb (digitChar (n mod 10)) c = false).
    { destruct (Ascii.eqb_spec (digitChar (n mod 10)) c) as [<- | _];
        [| reflexivity].
      pose proof (digitChar_cases (n mod 10)) as I. simpl in I.
      repeat (destruct I as [I | I]; [rewrite <- I in Hc; discriminate Hc |]).
      contradiction. }
    destruct (n <? 10); [| rewrite IH]; simpl; rewrite E; reflexivity.
Qed.

Lemma occurs_zeros (c : ascii) (k : nat) :
  digitValue c = None -> occurs c (repeatString "0" k) = false.
Proof.
  intros Hc. induction k as [| k IH]; [reflexivity |].
  change (repeatString "0" (S k)) with (String "0" (repeatString "0" k)).
  cbn [occurs]. rewrite IH.
  destruct (Ascii.eqb_spec "0"%char c) as [<- | _];
    [discriminate Hc | reflexivity].
Qed.

(** The separators do not occur in a padded number, negative or not. *)
Lemma occurs_pad (c : ascii) (width : nat) (n : Z) :
  digitValue c = None -> Ascii.eqb "-" c = false ->
  occurs c (pad width n) = false.
Proof.
  intros Hc Hm.
  assert (T : occurs c (Number_toString n) = false).
  { unfold Number_toString. destruct (n <? 0); cbn [occurs];
      rewrite ?Hm, occurs_digitsOf by exact Hc; reflexivity. }
  rewrite pad_unfold.
  destruct (width <=? String.length (Number_toString n))%nat; [exact T |].
  rewrite occurs_app, T, occurs_zeros by exact Hc. reflexivity.
Qed.

(** A negative number is printed with its minus sign, also behind the
    zeros of the padding, and is not a numeral. *)
Lemma pad_negative (width : nat) (n : Z) :
  n < 0 -> occurs "-" (pad width n) = true /\ parseDecimal (pad width n) = None.
Proof.
  intros H.
  assert (T : exists ds, Number_toString n = String "-" ds).
  { unfold Number_toString. destruct (Z.ltb_spec n 0); [| lia].
    eexists. reflexivity. }
  destruct T as [ds T]. rewrite pad_unfold, T.
  destruct (width <=? String.length (String "-" ds))%nat.
  - split; reflexivity.
  - split.
    + rewrite occurs_app. simpl. apply orb_true_r.
    + assert (R : forall acc,
                 readDigits (repeatString "0" (width - String.length (String "-" ds))
                               ++ String "-" ds) acc = None).
      { intros acc. rewrite readDigits_app.
        destruct (readDigits _ acc); reflexivity. }
      unfold parseDecimal.
      destruct (repeatString "0" (width - String.length (String "-" ds))
                  ++ String "-" ds)%string; [reflexivity | apply R].
Qed.

(** A string in which the separator does not occur, followed by the
    separator, is cut right behind the string. *)
Lemma splitAt_free (sep : ascii) (s rest : string) :
  occurs sep s = false ->
  splitAt sep (s ++ String sep rest) = Some (s, rest).
Proof.
  induction s as [| c s IH]; simpl; intros H.
  - rewrite Ascii.eqb_refl. reflexivity.
  - apply orb_false_elim in H. destruct H as [H1 H2].
    rewrite H1, (IH H2). reflexivity.
Qed.

(** The four printed parts are cut out of the string whatever their
    signs. *)
Lemma parseTimeSpan_fields (startDate endDate : Z) :
  let f := timeSpanFields startDate endDate in
  parseTimeSpan (timeSpanToString startDate endDate)
  = match parseDecimal (pad 2 (ts_hour f)), parseDecimal (pad 2 (ts_minutes f)),
          parseDecimal (pad 2 (ts_seconds f)),
          parseDecimal (pad 3 (ts_millisecond f)) with
    | Some h, Some m, Some sec, Some ms => Some (h, m, sec, ms)
    | _, _, _, _ => None
    end.
Proof.
  intros f. rewrite timeSpanToString_fields. fold f. unfold parseTimeSpan.
  change (":" ++ ?s)%string with (String ":" s).
  rewrite (splitAt_free ":") by (apply occurs_pad; reflexivity).
  change (":" ++ ?s)%string with (String ":" s).
  rewrite (splitAt_free ":") by (apply occurs_pad; reflexivity).
  change ("." ++ ?s)%string with (String "." s).
  rewrite (splitAt_free ".") by (apply occurs_pad; reflexivity).
  reflexivity.
Qed.

End TimeSpanFurther.

(** X6.  For valid dates and differences that are not negative, two pairs
    of dates get the same string exactly when their binary64 differences
    are the same; so among differences of at most 2^53 ms the printed
    string determines the difference: two pairs get the same string
    exactly when they are the same number of milliseconds apart. *)
Theorem timeSpanToString_injective (startDate1 endDate1 startDate2 endDate2 : Z) :
  validTime startDate1 /\ validTime endDate1 ->
  validTime startDate2 /\ validTime endDate2 ->
  0 <= endDate1 - startDate1 ->
  0 <= endDate2 - startDate2 ->
  (timeSpanToString startDate1 endDate1 = timeSpanToString startDate2 endDate2
   <-> Number_sub endDate1 startDate1 = Number_sub endDate2 startDate2)
  /\ (endDate1 - startDate1 <= 2 ^ 53 -> endDate2 - startDate2 <= 2 ^ 53 ->
      (timeSpanToString startDate1 endDate1
       = timeSpanToString startDate2 endDate2
       <-> endDate1 - startDate1 = endDate2 - startDate2)).
Proof.
  intros _ _ H1 H2.
  assert (G : timeSpanToString startDate1 endDate1
              = timeSpanToString startDate2 endDate2
              <-> Number_sub endDate1 startDate1
                  = Number_sub endDate2 startDate2).
  { split; intros E.
    - pose (total := fun r : option (Z * Z * Z * Z) =>
                       match r with
                       | Some (h, m, sec, ms) =>
                           h * 3600000 + m * 60000 + sec * 1000 + ms
                       | None => 0
                       end).
      assert (T1 : total (parseTimeSpan (timeSpanToString startDate1 endDate1))
                   = Number_sub endDate1 startDate1).
      { rewrite (timeSpanToString_parse _ _ (Number_sub_nonneg _ _ H1)).
        exact (timeSpanFields_sum startDate1 endDate1). }
      assert (T2 : total (parseTimeSpan (timeSpanToString startDate2 endDate2))
                   = Number_sub endDate2 startDate2).
      { rewrite (timeSpanToString_parse _ _ (Number_sub_nonneg _ _ H2)).
        exact (timeSpanFields_sum startDate2 endDate2). }
      rewrite <- T1, <- T2, E. reflexivity.
    - unfold timeSpanToString. rewrite E. reflexivity. }
  split; [exact G |].
  intros B1 B2. rewrite G, !Number_sub_exact by lia. reflexivity.
Qed.

Lemma timeSpanToString_injective_witness :
  (validTime 0 /\ validTime 19210453)
  /\ (validTime 7 /\ validTime 19210460)
  /\ 0 <= 19210453 - 0 /\ 0 <= 19210460 - 7
  /\ timeSpanToString 0 19210453 = timeSpanToString 7 19210460.
Proof.
  assert (V1 : validTime 0 /\ validTime 19210453)
    by (split; intro C; discriminate C).
  assert (V2 : validTime 7 /\ validTime 19210460)
    by (split; intro C; discriminate C).
  assert (P : 0 <= 19210453 - 0) by (intro C; discriminate C).
  assert (Q : 0 <= 19210460 - 7) by (intro C; discriminate C).
  split; [exact V1 | split; [exact V2 | split; [exact P | split; [exact Q |]]]].
  apply (proj2 (timeSpanToString_injective 0 19210453 7 19210460 V1 V2 P Q)).
  - intro C; discriminate C.
  - intro C; discriminate C.
  - reflexivity.
Defined.

(** X7.  A difference from 0 up to, but not including, 100 hours is printed
    in exactly 12 characters; from 100 hours on the string is longer. *)
Theorem timeSpanToString_length (startDate endDate : Z) :
  0 <= endDate - startDate ->
  (endDate - startDate < 360000000 ->
   String.length (timeSpanToString startDate endDate) = 12%nat)
  /\ (360000000 <= endDate - startDate ->
      (12 < String.length (timeSpanToString startDate endDate))%nat).
Proof.
  intros H0.
  pose proof (Number_sub_nonneg _ _ H0) as H.
  assert (X : endDate - startDate < 360000000 ->
              Number_sub endDate startDate = endDate - startDate).
  { intros B. apply Number_sub_exact.
    split; [exact H0 | apply Z.lt_le_incl, (Z.lt_trans _ _ _ B); reflexivity]. }
  assert (Y : 360000000 <= endDate - startDate ->
              360000000 <= Number_sub endDate startDate).
  { intros B. apply toBinary64_lower;
      [intro C; discriminate C | exact H0 | exact B]. }
  destruct (timeSpanFields_range startDate endDate H)
    as ([Hh Hh'] & [Hm _] & [Hs _] & Hms).
  rewrite timeSpanToString_fields, !string_length_app.
  rewrite (pad_length_exact 2 (ts_minutes _)),
    (pad_length_exact 2 (ts_seconds _)),
    (pad_length_exact 3 (ts_millisecond _))
    by (try (change (10 ^ Z.of_nat 2) with 100);
        try (change (10 ^ Z.of_nat 3) with 1000); lia).
  cbn [String.length]. split; intros B.
  - specialize (X B).
    rewrite pad_length_exact;
      [reflexivity | lia | change (10 ^ Z.of_nat 2) with 100; lia].
  - specialize (Y B).
    pose proof (readDigits_bound _ 0 _ (Z.le_refl 0)
                  (pad_read 2 (ts_hour (timeSpanFields startDate endDate)) Hh))
      as R.
    destruct (Nat.lt_ge_cases 2
                (String.length (pad 2 (ts_hour (timeSpanFields startDate endDate)))))
      as [L | L]; [lia | exfalso].
    assert (10 ^ Z.of_nat
                   (String.length
                      (pad 2 (ts_hour (timeSpanFields startDate endDate))))
            <= 10 ^ Z.of_nat 2) by (apply Z.pow_le_mono_r; lia).
    change (10 ^ Z.of_nat 2) with 100 in *. lia.
Qed.

Lemma timeSpanToString_length_witness :
  0 <= 359999999 - 0
  /\ String.length (timeSpanToString 0 359999999) = 12%nat.
Proof.
  assert (P : 0 <= 359999999 - 0) by (intro C; discriminate C).
  split; [exact P |].
  apply (proj1 (timeSpanToString_length 0 359999999 P)). reflexivity.
Defined.

(** X8.  When the end date is before the start date the minus sign of the
    negative numbers is printed, behind the padding zeros when a number is
    padded: the string always contains the character "-", and it is not of
    the shape H:M:S.ms with four decimal numerals. *)
Theorem timeSpanToString_negative (startDate endDate : Z) :
  endDate - startDate < 0 ->
  occurs "-" (timeSpanToString startDate endDate) = true
  /\ parseTimeSpan (timeSpanToString startDate endDate) = None.
Proof.
  intros H0.
  pose proof (toBinary64_negative _ H0) as H.
  fold (Number_sub endDate startDate) in H.
  pose proof (timeSpanFields_sum startDate endDate) as S.
  rewrite parseTimeSpan_fields, timeSpanToString_fields. cbv zeta.
  set (f := timeSpanFields startDate endDate) in *.
  rewrite !occurs_app.
  assert (C : ts_hour f < 0 \/ ts_minutes f < 0 \/ ts_seconds f < 0
              \/ ts_millisecond f < 0) by lia.
  destruct C as [C | [C | [C | C]]];
    [destruct (pad_negative 2 _ C) as [O P] ..
    | destruct (pad_negative 3 _ C) as [O P]];
    rewrite O, P; split.
  all: try (repeat match goal with
                   | |- context [occurs ?c ?s] =>
                       destruct (occurs c s)
                   end; reflexivity).
  all: repeat match goal with
              | |- context [parseDecimal ?s] => destruct (parseDecimal s)
              end; reflexivity.
Qed.

Lemma timeSpanToString_negative_witness :
  0 - 1 < 0
  /\ timeSpanToString 1 0 = "00:00:00.0-1"%string
  /\ parseTimeSpan (timeSpanToString 1 0) = None.
Proof.
  assert (P : 0 - 1 < 0) by reflexivity.
  split; [exact P | split; [reflexivity |]].
  exact (proj2 (timeSpanToString_negative 1 0 P)).
Defined.

(** ** [angleBetweenClockHands], further *)

Section ClockHandsFurther.

Lemma HourFromTime_shift (t k : Z) :
  HourFromTime (t + k * msPerHour) = (HourFromTime t + k) mod 24.
Proof.
  unfold HourFromTime, HoursPerDay, msPerHour.
  rewrite Z.div_add by lia. apply eq_sym, Zplus_mod_idemp_l.
Qed.

Lemma MinFromTime_shift (t k : Z) :
  MinFromTime (t + k * msPerHour) = MinFromTime t.
Proof.
  unfold MinFromTime, MinutesPerHour, msPerHour, msPerMinute.
  replace (t + k * 3600000) with (t + (k * 60) * 60000) by ring.
  rewrite Z.div_add by lia. apply Z.mod_add. lia.
Qed.

Lemma angleBetweenClockHands_angleAt (LocalTZA : Z -> Z) (date : Z) :
  angleBetweenClockHands LocalTZA date
  = angleAt (getHours LocalTZA date) (getMinutes LocalTZA date).
Proof. apply angleBetweenClockHands_steps. Qed.

(** Local hour and minute a whole number of hours later, the offset being
    the same. *)
Lemma local_time_later (LocalTZA : Z -> Z) (date k : Z) :
  LocalTZA (date + k * msPerHour) = LocalTZA date ->
  getHours LocalTZA (date + k * msPerHour) = (getHours LocalTZA date + k) mod 24
  /\ getMinutes LocalTZA (date + k * msPerHour) = getMinutes LocalTZA date.
Proof.
  intros H. unfold getHours, getMinutes, LocalTime. rewrite H.
  replace (date + k * msPerHour + LocalTZA date)
    with (date + LocalTZA date + k * msPerHour) by ring.
  split; [apply HourFromTime_shift | apply MinFromTime_shift].
Qed.

End ClockHandsFurther.

(** X9.  On a machine whose local time is a whole number [k] of hours ahead
    of UTC at the date, the minute used is the UTC minute and the hour left
    by the three-hour shift is the UTC hour moved by [k - 3] hours: it is
    the UTC hour exactly when [k - 3] is a multiple of 24, and three hours
    ahead of UTC the angle is computed from the UTC hour and minute of the
    date. *)
Theorem angleBetweenClockHands_offset (LocalTZA : Z -> Z) (date k : Z) :
  LocalTZA date = k * msPerHour ->
  shiftHours (getHours LocalTZA date) = (HourFromTime date + (k - 3)) mod 24
  /\ getMinutes LocalTZA date = MinFromTime date
  /\ (shiftHours (getHours LocalTZA date) = HourFromTime date
      <-> (k - 3) mod 24 = 0)
  /\ (k = 3 ->
      angleBetweenClockHands LocalTZA date
      = radians (foldAngle (rawAngle (remapHours (HourFromTime date))
                                     (MinFromTime date)))).
Proof.
  intros H.
  assert (Eh : getHours LocalTZA date = (HourFromTime date + k) mod 24).
  { unfold getHours, LocalTime. rewrite H. apply HourFromTime_shift. }
  assert (Em : getMinutes LocalTZA date = MinFromTime date).
  { unfold getMinutes, LocalTime. rewrite H. apply MinFromTime_shift. }
  assert (Es : shiftHours (getHours LocalTZA date)
               = (HourFromTime date + (k - 3)) mod 24).
  { destruct (shiftHours_range (getHours LocalTZA date)
                (HourFromTime_range _)) as [_ E].
    rewrite E, Eh, Zminus_mod_idemp_l. f_equal. ring. }
  pose proof (HourFromTime_range date) as R.
  split; [exact Es | split; [exact Em | split]].
  - rewrite Es. Z.div_mod_to_equations. lia.
  - intros ->. unfold angleBetweenClockHands, new_Date.
    rewrite Es, Em.
    replace (HourFromTime date + (3 - 3)) with (HourFromTime date) by ring.
    rewrite Z.mod_small by exact R. reflexivity.
Qed.

Lemma angleBetweenClockHands_offset_witness :
  utcPlus3 1459890000000 = 3 * msPerHour
  /\ shiftHours (getHours utcPlus3 1459890000000) = 21
  /\ HourFromTime 1459890000000 = 21.
Proof.
  assert (P : utcPlus3 1459890000000 = 3 * msPerHour) by reflexivity.
  split; [exact P | split; [| reflexivity]].
  exact (proj1 (angleBetweenClockHands_offset utcPlus3 1459890000000 3 P)).
Defined.

(** X10.  The angle repeats after 24 hours: a date and the date 24 hours
    later get the same angle when the offset from UTC is the same at
    both. *)
Theorem angleBetweenClockHands_next_day (LocalTZA : Z -> Z) (date : Z) :
  LocalTZA (date + msPerDay) = LocalTZA date ->
  angleBetweenClockHands LocalTZA (date + msPerDay)
  = angleBetweenClockHands LocalTZA date.
Proof.
  change msPerDay with (24 * msPerHour). intros H.
  destruct (local_time_later LocalTZA date 24 H) as [Eh Em].
  rewrite !angleBetweenClockHands_angleAt, Eh, Em.
  rewrite Z.add_mod, Z.mod_same, Z.add_0_r, Z.mod_mod by lia.
  rewrite (Z.mod_small (getHours LocalTZA date))
    by apply HourFromTime_range.
  reflexivity.
Qed.

Lemma angleBetweenClockHands_next_day_witness :
  utc (1457136540000 + msPerDay) = utc 1457136540000
  /\ angleBetweenClockHands utc (1457136540000 + msPerDay)
     = angleBetweenClockHands utc 1457136540000.
Proof.
  assert (P : utc (1457136540000 + msPerDay) = utc 1457136540000)
    by reflexivity.
  split; [exact P | exact (angleBetweenClockHands_next_day utc _ P)].
Defined.

(** X11.  On a 12-hour dial the angle should repeat after 12 hours.  It
    does, the offset from UTC being the same, for every date but those in
    the local hours 3 and 15: there the shifted hour is 0 or 12, the test
    [hours > 12] keeps 12 as it is, and the date and the date 12 hours
    later get different angles, whatever the minute. *)
Theorem angleBetweenClockHands_half_day (LocalTZA : Z -> Z) (date : Z) :
  LocalTZA (date + 12 * msPerHour) = LocalTZA date ->
  if (getHours LocalTZA date =? 3) || (getHours LocalTZA date =? 15)
  then (angleBetweenClockHands LocalTZA (date + 12 * msPerHour)
        =? angleBetweenClockHands LocalTZA date)%float = false
  else angleBetweenClockHands LocalTZA (date + 12 * msPerHour)
       = angleBetweenClockHands LocalTZA date.
Proof.
  intros H. destruct (local_time_later LocalTZA date 12 H) as [Eh Em].
  rewrite !angleBetweenClockHands_angleAt, Eh, Em.
  pose proof (at_every_date LocalTZA
    (fun h m =>
       if (h =? 3) || (h =? 15)
       then negb (angleAt ((h + 12) mod 24) m =? angleAt h m)%float
       else Leibniz.eqb (angleAt ((h + 12) mod 24) m) (angleAt h m))
    ltac:(vm_compute; reflexivity) date) as E.
  cbv beta in E.
  destruct ((getHours LocalTZA date =? 3) || (getHours LocalTZA date =? 15)).
  - apply negb_true_iff, E.
  - apply Leibniz.eqb_spec, E.
Qed.

Lemma angleBetweenClockHands_half_day_witness :
  utcPlus3 (1457179200000 + 12 * msPerHour) = utcPlus3 1457179200000
  /\ getHours utcPlus3 1457179200000 = 15
  /\ angleBetweenClockHands utcPlus3 1457179200000
     = ((Math_PI * 120) / 180)%float
  /\ angleBetweenClockHands utcPlus3 (1457179200000 + 12 * msPerHour) = 0%float
  /\ (angleBetweenClockHands utcPlus3 (1457179200000 + 12 * msPerHour)
      =? angleBetweenClockHands utcPlus3 1457179200000)%float = false.
Proof.
  assert (P : utcPlus3 (1457179200000 + 12 * msPerHour)
              = utcPlus3 1457179200000) by reflexivity.
  split; [exact P |].
  repeat (split; [vm_compute; reflexivity |]).
  exact (angleBetweenClockHands_half_day utcPlus3 1457179200000 P).
Defined.

(** X12.  The division by 3 gives the smaller of the two angles between
    the hands, [360 - raw], for a raw angle of 270 degrees only: for every
    date the angle in degrees that is converted is [raw] or [360 - raw],
    whichever is at most 180, exactly when the raw angle is at most 180 or
    is 270. *)
Theorem angleBetweenClockHands_smaller_angle (LocalTZA : Z -> Z) (date : Z) :
  let raw := rawAngle (remapHours (shiftHours (getHours LocalTZA date)))
                      (getMinutes LocalTZA date) in
  angleBetweenClockHands LocalTZA date = radians (foldAngle raw)
  /\ Leibniz.eqb (foldAngle raw) (reflexAngle raw)
     = ((raw <=? 180) || (raw =? 270))%float.
Proof.
  intros raw. split; [reflexivity |]. subst raw.
  rewrite remapHours_shiftHours.
  apply eqb_prop.
  apply (at_every_date LocalTZA
    (fun h m =>
       Bool.eqb (Leibniz.eqb (foldAngle (rawAngle (hour12 h) m))
                             (reflexAngle (rawAngle (hour12 h) m)))
                ((rawAngle (hour12 h) m <=? 180)
                 || (rawAngle (hour12 h) m =? 270))%float)).
  vm_compute. reflexivity.
Qed.

(** ** The order of the printed time spans *)

Section TimeSpanOrder.

Lemma digitValue_compare (c1 c2 : ascii) (d1 d2 : Z) :
  digitValue c1 = Some d1 -> digitValue c2 = Some d2 ->
  0 <= d1 < 10 /\ 0 <= d2 < 10 /\ Ascii.compare c1 c2 = Z.compare d1 d2.
Proof.
  unfold digitValue, Ascii.compare. intros H1 H2.
  destruct (Z.leb_spec 48 (Z.of_N (N_of_ascii c1)));
    destruct (Z.leb_spec (Z.of_N (N_of_ascii c1)) 57);
    simpl in H1; try discriminate H1.
  destruct (Z.leb_spec 48 (Z.of_N (N_of_ascii c2)));
    destruct (Z.leb_spec (Z.of_N (N_of_ascii c2)) 57);
    simpl in H2; try discriminate H2.
  injection H1 as <-. injection H2 as <-.
  split; [lia | split; [lia |]].
  rewrite <- N2Z.inj_compare.
  rewrite <- (Z.add_compare_mono_l 48 (_ - 48) (_ - 48)). f_equal; ring.
Qed.

(** Two numerals of the same length compare as the numbers they read to. *)
Lemma compare_numerals (s1 : string) :
  forall s2 acc v1 v2,
    String.length s1 = String.length s2 -> 0 <= acc ->
    readDigits s1 acc = Some v1 -> readDigits s2 acc = Some v2 ->
    String.compare s1 s2 = Z.compare v1 v2.
Proof.
  induction s1 as [| c1 s1 IH]; intros [| c2 s2] acc v1 v2 L Hacc R1 R2;
    simpl in L; try discriminate L.
  - simpl in R1, R2. injection R1 as <-. injection R2 as <-.
    simpl. symmetry. apply Z.compare_refl.
  - simpl in R1, R2.
    destruct (digitValue c1) as [d1 |] eqn:D1; [| discriminate R1].
    destruct (digitValue c2) as [d2 |] eqn:D2; [| discriminate R2].
    destruct (digitValue_compare c1 c2 d1 d2 D1 D2) as (B1 & B2 & C).
    injection L as L. cbn [String.compare]. rewrite C.
    assert (A1 : 0 <= acc * 10 + d1) by lia.
    assert (A2 : 0 <= acc * 10 + d2) by lia.
    pose proof (readDigits_bound _ _ _ A1 R1) as N1.
    pose proof (readDigits_bound _ _ _ A2 R2) as N2.
    rewrite L in N1.
    assert (0 < 10 ^ Z.of_nat (String.length s2))
      by (apply Z.pow_pos_nonneg; lia).
    destruct (Z.compare_spec d1 d2) as [E | E | E].
    + subst d2. apply (IH s2 (acc * 10 + d1)); try assumption; lia.
    + symmetry. apply Z.compare_lt_iff. nia.
    + symmetry. apply Z.compare_gt_iff. nia.
Qed.

Lemma compare_app (a1 : string) :
  forall a2 r1 r2,
    String.length a1 = String.length a2 ->
    String.compare (a1 ++ r1) (a2 ++ r2)
    = match String.compare a1 a2 with
      | Eq => String.compare r1 r2
      | c => c
      end.
Proof.
  induction a1 as [| x a1 IH]; intros [| y a2] r1 r2 L;
    simpl in L; try discriminate L.
  - reflexivity.
  - injection L as L. cbn [append String.compare].
    destruct (Ascii.compare x y); [apply IH, L | reflexivity | reflexivity].
Qed.

Lemma compare_pad (width : nat) (n1 n2 : Z) :
  (1 <= width)%nat ->
  0 <= n1 < 10 ^ Z.of_nat width -> 0 <= n2 < 10 ^ Z.of_nat width ->
  String.compare (pad width n1) (pad width n2) = Z.compare n1 n2.
Proof.
  intros W H1 H2.
  apply (compare_numerals _ _ 0).
  - rewrite !pad_length_exact by assumption. reflexivity.
  - lia.
  - apply pad_read. lia.
  - apply pad_read. lia.
Qed.

End TimeSpanOrder.

(** X13.  Below 100 hours the printed strings sort like the differences:
    comparing the strings of two differences from 0 up to 100 hours,
    character by character, gives the comparison of the two differences. *)
Theorem timeSpanToString_order (startDate1 endDate1 startDate2 endDate2 : Z) :
  0 <= endDate1 - startDate1 < 360000000 ->
  0 <= endDate2 - startDate2 < 360000000 ->
  String.compare (timeSpanToString startDate1 endDate1)
                 (timeSpanToString startDate2 endDate2)
  = Z.compare (endDate1 - startDate1) (endDate2 - startDate2).
Proof.
  intros [L1 U1] [L2 U2].
  assert (X1 : Number_sub endDate1 startDate1 = endDate1 - startDate1).
  { apply Number_sub_exact.
    split; [exact L1 | apply Z.lt_le_incl, (Z.lt_trans _ _ _ U1); reflexivity]. }
  assert (X2 : Number_sub endDate2 startDate2 = endDate2 - startDate2).
  { apply Number_sub_exact.
    split; [exact L2 | apply Z.lt_le_incl, (Z.lt_trans _ _ _ U2); reflexivity]. }
  rewrite <- X1 in L1, U1 |- *. rewrite <- X2 in L2, U2 |- *.
  destruct (timeSpanFields_range startDate1 endDate1 L1)
    as ([Hh1 Hh1'] & [Hm1 Hm1'] & [Hs1 Hs1'] & Hms1).
  destruct (timeSpanFields_range startDate2 endDate2 L2)
    as ([Hh2 Hh2'] & [Hm2 Hm2'] & [Hs2 Hs2'] & Hms2).
  pose proof (timeSpanFields_sum startDate1 endDate1) as S1.
  pose proof (timeSpanFields_sum startDate2 endDate2) as S2.
  rewrite !timeSpanToString_fields.
  set (f1 := timeSpanFields startDate1 endDate1) in *.
  set (f2 := timeSpanFields startDate2 endDate2) in *.
  assert (P2 : 10 ^ Z.of_nat 2 = 100) by reflexivity.
  assert (P3 : 10 ^ Z.of_nat 3 = 1000) by reflexivity.
  rewrite compare_app by (rewrite !pad_length_exact; lia).
  rewrite compare_pad by lia.
  change (":" ++ ?s)%string with (String ":" s). cbn [String.compare].
  change (Ascii.compare ":" ":") with Eq. cbv iota.
  rewrite compare_app by (rewrite !pad_length_exact; lia).
  rewrite compare_pad by lia.
  change (":" ++ ?s)%string with (String ":" s). cbn [String.compare].
  change (Ascii.compare ":" ":") with Eq. cbv iota.
  rewrite compare_app by (rewrite !pad_length_exact; lia).
  rewrite compare_pad by lia.
  change ("." ++ ?s)%string with (String "." s). cbn [String.compare].
  change (Ascii.compare "." ".") with Eq. cbv iota.
  rewrite compare_pad by lia.
  symmetry.
  destruct (Z.compare_spec (ts_hour f1) (ts_hour f2));
    [| apply Z.compare_lt_iff; lia | apply Z.compare_gt_iff; lia].
  destruct (Z.compare_spec (ts_minutes f1) (ts_minutes f2));
    [| apply Z.compare_lt_iff; lia | apply Z.compare_gt_iff; lia].
  destruct (Z.compare_spec (ts_seconds f1) (ts_seconds f2));
    [| apply Z.compare_lt_iff; lia | apply Z.compare_gt_iff; lia].
  destruct (Z.compare_spec (ts_millisecond f1) (ts_millisecond f2));
    [apply Z.compare_eq_iff | apply Z.compare_lt_iff | apply Z.compare_gt_iff];
    lia.
Qed.

Lemma timeSpanToString_order_witness :
  0 <= 35999999 - 0 < 360000000
  /\ 0 <= 36000000 - 0 < 360000000
  /\ String.compare (timeSpanToString 0 35999999) (timeSpanToString 0 36000000)
     = Lt.
Proof.
  assert (P : 0 <= 35999999 - 0 < 360000000)
    by (split; [intro C; discriminate C | reflexivity]).
  assert (Q : 0 <= 36000000 - 0 < 360000000)
    by (split; [intro C; discriminate C | reflexivity]).
  split; [exact P | split; [exact Q |]].
  exact (timeSpanToString_order 0 35999999 0 36000000 P Q).
Defined.
